(** * jedi.inference.gradual.annotation: PEP 484 annotation inference

    A shallow embedding of [jedi/inference/gradual/annotation.py] and the
    properties of it that the specification states.

    Conventions of the model:
    - a Python exception is a value [Raise e] of the [result] type, and
      [try]/[except] is a [match] on it;
    - [debug.warning] appends to a log that is threaded next to the result
      (the [logged] monad);
    - a [ValueSet] is a finite set of values ([gset Value]); a type-variable
      dictionary is a finite map from names to value sets
      ([gmap string (gset Value)]);
    - the collaborators the module imports (the parso parser, the inference
      engine, the methods of values) are the fields of the class [Engine];
    - strings are sequences of code points below 256. *)

From Stdlib Require Import Ascii String.
From stdpp Require Import base option list strings gmap sets fin_maps fin_sets.

Set Warnings "-clear-no-such-hyp".

Local Open Scope string_scope.
Local Open Scope list_scope.
Local Open Scope nat_scope.

(** ** Exceptions and the two monads *)

Inductive exn : Type :=
| ParserSyntaxError
| AttributeError
| IndexError
| KeyError
| ValueError
| RecursionError
| SimpleGetItemNotFound.

Inductive result (A : Type) : Type :=
| Ok (a : A)
| Raise (e : exn).
Arguments Ok {A} a.
Arguments Raise {A} e.

#[global] Instance result_ret : MRet result := @Ok.
#[global] Instance result_bind : MBind result := fun A B f m =>
  match m with
  | Ok a => f a
  | Raise e => Raise e
  end.

Definition raises {A} (r : result A) : Prop := exists e, r = Raise e.

(** ** Strings as Python sees them *)

(** [str.isspace] on one character, which is also the class [\s] of [re]. *)
Definition is_space (c : ascii) : bool :=
  let n := nat_of_ascii c in
  ((9 <=? n) && (n <=? 13)) || ((28 <=? n) && (n <=? 32))
  || (n =? 133) || (n =? 160).

Fixpoint lstrip (s : list ascii) : list ascii :=
  match s with
  | c :: s' => if is_space c then lstrip s' else s
  | [] => []
  end.

(** [str.strip()] *)
Definition strip (s : string) : string :=
  string_of_list_ascii
    (rev (lstrip (rev (lstrip (list_ascii_of_string s))))).

(** ** The three regular expressions, and [re.match]

    The patterns of the module use literals, greedy stars of a character
    class, and one group.  [re_run] is the backtracking matcher of [re] on
    that fragment: a star first takes as many characters as it can and gives
    them back one at a time while the rest of the pattern fails. *)

Inductive regex_item : Type :=
| Chr (c : ascii)
| Star (p : ascii -> bool)
| GroupOpen
| GroupClose.

Fixpoint re_run (items : list regex_item) (s start cap : list ascii)
  {struct items} : option (list ascii) :=
  match items with
  | [] => Some cap
  | Chr c :: rest =>
      match s with
      | c' :: s' => if Ascii.eqb c c' then re_run rest s' start cap else None
      | [] => None
      end
  | Star p :: rest =>
      (fix star (s : list ascii) : option (list ascii) :=
         match s with
         | c :: s' =>
             if p c then
               match star s' with
               | Some r => Some r
               | None => re_run rest s start cap
               end
             else re_run rest s start cap
         | [] => re_run rest [] start cap
         end) s
  | GroupOpen :: rest => re_run rest s s cap
  | GroupClose :: rest =>
      re_run rest s start (take (length start - length s) start)
  end.

Definition lit (s : string) : list regex_item :=
  map Chr (list_ascii_of_string s).

Definition not_hash (c : ascii) : bool := negb (Ascii.eqb c "#").

(** [re.match(pattern, s)] followed by [.group(1)]; [None] is no match. *)
Definition re_match_group1 (pattern : list regex_item) (s : string)
  : option string :=
  string_of_list_ascii <$> re_run pattern (list_ascii_of_string s) [] [].

(** The pattern of [_infer_param] (line 155), token by token:
    ^ # \s* type: \s* \( ( [^#]* ) \) \s* -> *)
Definition param_comment_re : list regex_item :=
  lit "#" ++ [Star is_space] ++ lit "type:" ++ [Star is_space] ++ lit "("
  ++ [GroupOpen; Star not_hash; GroupClose] ++ lit ")" ++ [Star is_space]
  ++ lit "->".

(** The pattern of [infer_return_types] (line 215), token by token:
    ^ # \s* type: \s* \( [^#]* \) \s* -> \s* ( [^#]* ) *)
Definition return_comment_re : list regex_item :=
  lit "#" ++ [Star is_space] ++ lit "type:" ++ [Star is_space] ++ lit "("
  ++ [Star not_hash] ++ lit ")" ++ [Star is_space] ++ lit "->"
  ++ [Star is_space] ++ [GroupOpen; Star not_hash; GroupClose].

(** The pattern of [_find_type_from_comment_hint] (line 532), token by token:
    ^ # \s* type: \s* ( [^#]* ) *)
Definition hint_comment_re : list regex_item :=
  lit "#" ++ [Star is_space] ++ lit "type:" ++ [Star is_space]
  ++ [GroupOpen; Star not_hash; GroupClose].

(** ** Syntax trees (parso)

    A leaf carries its type, the whitespace and comments before it (its
    prefix) and its text; an inner node carries its type and its children.
    Positions and parent links are not part of the model. *)

#[warnings="-register-all"]
Inductive Node : Type :=
| Leaf (type_ : string) (prefix value : string)
| BaseNode (type_ : string) (children_ : list Node).

Definition node_type (n : Node) : string :=
  match n with
  | Leaf t _ _ => t
  | BaseNode t _ => t
  end.

(** [node.children]: a leaf has no such attribute. *)
Definition children (n : Node) : result (list Node) :=
  match n with
  | Leaf _ _ _ => Raise AttributeError
  | BaseNode _ cs => Ok cs
  end.

(** [node.get_code()]: the source text of the node, prefixes included. *)
Fixpoint get_code (n : Node) : string :=
  match n with
  | Leaf _ p v => p +:+ v
  | BaseNode _ cs => foldr (fun c acc => get_code c +:+ acc) "" cs
  end.

(** [leaf == s]: operators and keywords compare by their text, every other
    node by identity (never equal to a string). *)
Definition node_eq_str (n : Node) (s : string) : bool :=
  match n with
  | Leaf t _ v =>
      (bool_decide (t = "operator") || bool_decide (t = "keyword"))
      && bool_decide (v = s)
  | BaseNode _ _ => false
  end.

(** [l[i]] and [l[-1]] on a Python list *)
Definition getitem {A} (l : list A) (i : nat) : result A :=
  match l !! i with
  | Some x => Ok x
  | None => Raise IndexError
  end.

Definition getitem_last {A} (l : list A) : result A :=
  match last l with
  | Some x => Ok x
  | None => Raise IndexError
  end.

(** [l[::2]] *)
Fixpoint every_other {A} (l : list A) : list A :=
  match l with
  | x :: _ :: rest => x :: every_other rest
  | _ => l
  end.

(** A loop whose body may raise, threading the loop's state. *)
Fixpoint for_each {A S} (l : list A) (body : A -> S -> result S) (s : S)
  : result S :=
  match l with
  | [] => Ok s
  | x :: rest => s' ← body x s; for_each rest body s'
  end.

(** ** Values

    A value is an object of the inference engine; the model names it by its
    identity.  What the module asks of a value is in [Engine] below. *)

Record Value : Type := Obj { obj_id : nat }.

#[global] Instance Value_eq_dec : EqDecision Value.
Proof. solve_decision. Defined.
#[global] Instance Value_countable : Countable Value :=
  inj_countable' obj_id Obj (fun v => match v with Obj _ => eq_refl end).

Abbreviation ValueSet := (gset Value).
Abbreviation TypeVarDict := (gmap string (gset Value)).

Definition NO_VALUES : ValueSet := ∅.

(** The classes the module tests values against with [isinstance]. *)
Inductive PyClass : Type :=
| TypeVar
| TypingClassValueWithIndex
| GenericClass
| DefineGenericBase.

(** [inspect.Parameter] kinds *)
Inductive ParameterKind : Type :=
| POSITIONAL_ONLY
| POSITIONAL_OR_KEYWORD
| VAR_POSITIONAL
| KEYWORD_ONLY
| VAR_KEYWORD.

Record InferContext : Type := Ctx { ctx_id : nat }.
Record CallArguments : Type := Args { args_id : nat }.

(** A [param] node, by what the module reads of it. *)
Record Param : Type := {
  param_annotation : option Node;
  param_name : string;                 (* param.name.value *)
  star_count : nat;
  (* len([c for c in param.parent.children if c.type == 'param']) *)
  all_params_len : nat;
  (* all_params.index(param) *)
  param_index : nat;
  (* get_following_comment_same_line(param.parent.parent) *)
  param_comment : option string
}.

(** A [funcdef] node, by what the module reads of it. *)
Record FuncDef : Type := {
  get_params : list Param;
  funcdef_annotation : option Node;    (* the node after [->] *)
  (* get_following_comment_same_line(funcdef) *)
  funcdef_comment : option string
}.

(** A function value. *)
Record Function : Type := {
  tree_node : FuncDef;
  get_default_param_context : InferContext;
  is_bound_method : bool
}.

(** One entry of [get_executed_param_names(function, arguments)]. *)
Record ExecutedParamName : Type := {
  string_name : string;
  get_kind : ParameterKind;
  infer : ValueSet
}.

(** ** Diagnostics *)

Inductive warning : Type :=
(* 'Inferred typing index %s should lead to 1 object,  not %s' *)
| TypingIndexNotOneObject (annotation : Node) (value_set : ValueSet)
(* 'Annotation not parsed: %s' *)
| AnnotationNotParsed (s : string)
(* 'Comment annotation is not valid Python: %s' *)
| CommentNotValidPython (decl_text : string)
(* 'Comments length != Params length %s %s' *)
| CommentsLengthMismatch (params_comments : list string) (n_params : nat).

Record logged (A : Type) : Type := Logged {
  log : list warning;
  outcome : result A
}.
Arguments Logged {A} log outcome.
Arguments log {A} l.
Arguments outcome {A} l.

#[global] Instance logged_ret : MRet logged := fun A a => Logged [] (Ok a).
#[global] Instance logged_bind : MBind logged := fun A B f m =>
  match outcome m with
  | Ok a => Logged (log m ++ log (f a)) (outcome (f a))
  | Raise e => Logged (log m) (Raise e)
  end.

Definition debug_warning (w : warning) : logged unit := Logged [w] (Ok tt).
Definition lift {A} (r : result A) : logged A := Logged [] r.

(** ** The collaborators *)

Class Engine : Type := {
  (* context.inference_state.grammar.parse(s, start_symbol='eval_input',
     error_recovery=False) *)
  grammar_parse : string -> result Node;
  (* parso.parse(text, error_recovery=False): the module node *)
  parse : string -> result Node;
  (* lines 74 to 76: the new node moved behind the last line of the module
     of the context and given the tree node of the context as parent *)
  anchor : InferContext -> Node -> Node;
  infer_node : InferContext -> Node -> ValueSet;
  get_executed_param_names : Function -> CallArguments -> list ExecutedParamName;
  (* arguments.unpack(): the key and the inferred lazy value of each
     argument *)
  unpack : CallArguments -> list (option string * ValueSet);
  builtin_from_name : string -> Value;
  (* GenericClass(class_value, TupleGenericManager(generics)) *)
  new_GenericClass : Value -> list ValueSet -> Value;
  (* sys.getrecursionlimit(), counted in calls of _infer_type_vars *)
  recursion_limit : nat;
  (* methods of one value *)
  isinstance : Value -> PyClass -> bool;
  is_string : Value -> bool;
  get_safe_value : Value -> string;
  py__name__ : Value -> string;
  py__class__ : Value -> Value;
  py__mro__ : Value -> list Value;
  get_generics : Value -> list ValueSet;
  execute_annotation : Value -> ValueSet;
  define_generics : Value -> TypeVarDict -> ValueSet;
  has_is_instance : Value -> bool;     (* hasattr(value, 'is_instance') *)
  is_instance : Value -> bool;
  get_annotated_class_object : Value -> Value;
  _is_homogenous : Value -> bool;
  array_type : Value -> option string;
  py__iter__ : Value -> list ValueSet;
  py__simple_getitem__ : Value -> nat -> result ValueSet;
  (* methods of a value set that go through ValueSet.iterate *)
  merge_types_of_iterate : ValueSet -> ValueSet;
  try_merge_dict_values : ValueSet -> ValueSet
}.

(** ** The module *)

Section annotation.
Context {E : Engine}.

(** *** Methods of [ValueSet] that map a method of the members

    The class [ValueSet] is defined in [jedi.inference.base_value], outside
    this module.  A value set is the unit of computation: a method of the
    set is the method of its members, mapped over them. *)

(** Modelled from the spec: [ValueSet.py__class__()], the set of the
    classes of the members. *)
Definition vs_py__class__ (value_set : ValueSet) : ValueSet :=
  set_map py__class__ value_set.

(** Modelled from the spec: [ValueSet.execute_annotation()], the union of
    what the members give when executed as annotations. *)
Definition vs_execute_annotation (value_set : ValueSet) : ValueSet :=
  set_bind execute_annotation value_set.

(** Modelled from the spec: [ValueSet.py__simple_getitem__(index)], the
    union of the elements at [index] of the members; it raises when a
    member does. *)
Definition vs_py__simple_getitem__ (value_set : ValueSet) (index : nat)
  : result ValueSet :=
  for_each (elements value_set)
    (fun value acc => r ← py__simple_getitem__ value index; mret (acc ∪ r))
    ∅.

(** *** Forward references and annotation strings *)

(** [force_unicode] is the identity on text. *)
Definition _get_forward_reference_node (context : InferContext)
  (string : string) : logged (option Node) :=
  match grammar_parse string with
  | Raise ParserSyntaxError =>
      _ ← debug_warning (AnnotationNotParsed string);
      mret None
  | Raise e => lift (Raise e)
  | Ok new_node => mret (Some (anchor context new_node))
  end.

Definition infer_annotation (context : InferContext) (annotation : Node)
  : logged ValueSet :=
  let value_set := infer_node context annotation in
  if decide (size value_set ≠ 1) then
    _ ← debug_warning (TypingIndexNotOneObject annotation value_set);
    mret value_set
  else
    inferred_value ← lift (getitem (elements value_set) 0);
    if is_string inferred_value then
      result ← _get_forward_reference_node context
                 (get_safe_value inferred_value);
      match result with
      | Some node => mret (infer_node context node)
      | None => mret value_set
      end
    else mret value_set.

Definition _infer_annotation_string (context : InferContext)
  (string : string) (index : option nat) : logged ValueSet :=
  node ← _get_forward_reference_node context string;
  match node with
  | None => mret NO_VALUES
  | Some node =>
      let value_set := infer_node context node in
      match index with
      | Some index =>
          lift (vs_py__simple_getitem__
                  (filter (fun value =>
                             array_type value = Some "tuple"
                             ∧ index ≤ length (py__iter__ value))
                          value_set)
                  index)
      | None => mret value_set
      end
  end.

(** *** Comment annotations *)

(** [node.type in ['name', 'atom_expr', 'power']] *)
Definition is_name_like (n : Node) : bool :=
  bool_decide (node_type n ∈ ["name"; "atom_expr"; "power"]).

Definition _split_comment_param_declaration (decl_text : string)
  : logged (list string) :=
  match (m ← parse decl_text; cs ← children m; getitem cs 0) with
  | Raise ParserSyntaxError =>
      _ ← debug_warning (CommentNotValidPython decl_text);
      mret []
  | Raise e => lift (Raise e)
  | Ok node =>
      if is_name_like node then mret [strip (get_code node)]
      else
        match children node with
        | Raise AttributeError => mret []
        | Raise e => lift (Raise e)
        | Ok children =>
            mret (map (fun child => strip (get_code child))
                      (filter (fun child => is_name_like child = true)
                              children))
        end
  end.

Definition _infer_param (function_value : Function) (param : Param)
  : logged ValueSet :=
  match param_annotation param with
  | None =>
      match param_comment param with
      | None => mret NO_VALUES
      | Some comment =>
          match re_match_group1 param_comment_re comment with
          | None => mret NO_VALUES
          | Some group1 =>
              params_comments ← _split_comment_param_declaration group1;
              let index := param_index param in
              _ ← (if decide (length params_comments ≠ all_params_len param)
                   then debug_warning
                          (CommentsLengthMismatch params_comments
                             (all_params_len param))
                   else mret tt);
              let lookup (index : nat) : logged ValueSet :=
                match params_comments !! index with
                | None => mret NO_VALUES      (* index >= len(params_comments) *)
                | Some param_comment =>
                    _infer_annotation_string
                      (get_default_param_context function_value)
                      param_comment None
                end in
              if is_bound_method function_value then
                match index with
                | O => mret NO_VALUES
                | S index' => lookup index'
                end
              else lookup index
          end
      end
  | Some annotation =>
      infer_annotation (get_default_param_context function_value) annotation
  end.

(** The memoisation of [inference_state_method_cache] is not modelled. *)
Definition infer_param (function_value : Function) (param : Param)
  (ignore_stars : bool) : logged ValueSet :=
  values ← _infer_param function_value param;
  if ignore_stars then mret values
  else if decide (star_count param = 1) then
    let tuple_ := builtin_from_name "tuple" in
    mret (list_to_set
            (map (fun c => new_GenericClass tuple_ [values])
                 (elements values)))
  else if decide (star_count param = 2) then
    let dct := builtin_from_name "dict" in
    let generics := [ {[ builtin_from_name "str" ]}; values ] in
    mret (list_to_set
            (map (fun c => new_GenericClass dct generics)
                 (elements values)))
  else mret values.

Definition py__annotations__ (funcdef : FuncDef) : gmap string Node :=
  let dct :=
    foldl (fun dct function_param =>
             match param_annotation function_param with
             | Some param_annotation =>
                 <[param_name function_param := param_annotation]> dct
             | None => dct
             end)
          ∅ (get_params funcdef) in
  match funcdef_annotation funcdef with
  | Some return_annotation => <["return" := return_annotation]> dct
  | None => dct
  end.

(** *** Type-variable discovery *)

Definition _filter_type_vars (value_set : ValueSet) (found : list Value)
  : list Value :=
  foldl (fun new_found type_var =>
           if isinstance type_var TypeVar && bool_decide (type_var ∉ found)
           then new_found ++ [type_var]
           else new_found)
        found (elements value_set).

Definition _unpack_subscriptlist (subscriptlist : Node) : result (list Node) :=
  if decide (node_type subscriptlist = "subscriptlist") then
    cs ← children subscriptlist;
    mret (filter (fun subscript => node_type subscript ≠ "subscript")
                 (every_other cs))
  else if decide (node_type subscriptlist ≠ "subscript") then
    mret [subscriptlist]
  else mret [].

(** [check_node], the local function of [find_unknown_type_vars]; [found]
    is the list it fills.  [depth] is the number of nested calls left. *)
Fixpoint check_node (depth : nat) (context : InferContext) (node : Node)
  (found : list Value) : result (list Value) :=
  match depth with
  | O => Raise RecursionError
  | S depth =>
      if bool_decide (node_type node ∈ ["atom_expr"; "power"]) then
        cs ← children node;
        trailer ← getitem_last cs;
        if decide (node_type trailer = "trailer") then
          tcs ← children trailer;
          first ← getitem tcs 0;
          if node_eq_str first "[" then
            sub ← getitem tcs 1;
            subscript_nodes ← _unpack_subscriptlist sub;
            for_each subscript_nodes (check_node depth context) found
          else mret found
        else mret found
      else mret (_filter_type_vars (infer_node context node) found)
  end.

Definition find_unknown_type_vars (context : InferContext) (node : Node)
  : result (list Value) :=
  check_node recursion_limit context node [].

(** *** Merging and unification *)

(** [base_dict] is updated in place in the source; here the updated
    dictionary is returned. *)
Definition _merge_type_var_dicts (base_dict new_dict : TypeVarDict)
  : TypeVarDict :=
  map_fold (fun type_var_name values base_dict =>
              if decide (values ≠ ∅) then
                match base_dict !! type_var_name with
                | Some old => <[type_var_name := old ∪ values]> base_dict
                | None => <[type_var_name := values]> base_dict   (* KeyError *)
                end
              else base_dict)
           base_dict new_dict.

(** The loop that [_infer_type_vars] repeats in every branch:
    [for nested_annotation_value in nested:
       _merge_type_var_dicts(type_var_dict, _infer_type_vars(nested_annotation_value, ...))]
    with [rec] the recursive call at the arguments of the branch. *)
Definition merge_nested (rec : Value -> result TypeVarDict)
  (nested : ValueSet) (type_var_dict : TypeVarDict) : result TypeVarDict :=
  for_each (elements nested)
    (fun nested_annotation_value type_var_dict =>
       new_dict ← rec nested_annotation_value;
       mret (_merge_type_var_dicts type_var_dict new_dict))
    type_var_dict.

(** [for annotation_generics_set, actual_generic_set
       in zip(annotation_generics, actual_generics): ...] around that loop. *)
Definition merge_zipped (rec : Value -> ValueSet -> result TypeVarDict)
  (annotation_generics actual_generics : list ValueSet)
  (type_var_dict : TypeVarDict) : result TypeVarDict :=
  for_each (zip annotation_generics actual_generics)
    (fun pair type_var_dict =>
       merge_nested (fun v => rec v pair.2) pair.1 type_var_dict)
    type_var_dict.

(** The walk over the method-resolution order of lines 472 to 495, with its
    [continue] and [break]. *)
Fixpoint walk_mro (rec : Value -> ValueSet -> result TypeVarDict)
  (annotation_value : Value) (mro : list Value)
  (type_var_dict : TypeVarDict) : result TypeVarDict :=
  match mro with
  | [] => Ok type_var_dict
  | parent_class :: rest =>
      let class_name := py__name__ parent_class in
      if decide (py__name__ annotation_value = class_name) then
        if negb (isinstance parent_class DefineGenericBase) then
          walk_mro rec annotation_value rest type_var_dict      (* continue *)
        else
          let annotation_generics := get_generics annotation_value in
          let actual_generics := get_generics parent_class in
          merge_zipped rec annotation_generics actual_generics
            type_var_dict                                       (* break *)
      else walk_mro rec annotation_value rest type_var_dict
  end.

(** [depth] is the number of nested calls left before [RecursionError]. *)
Fixpoint _infer_type_vars (depth : nat) (annotation_value : Value)
  (value_set : ValueSet) (is_class_value : bool) : result TypeVarDict :=
  match depth with
  | O => Raise RecursionError
  | S depth =>
  let type_var_dict : TypeVarDict := ∅ in
  let annotation_name := py__name__ annotation_value in
  if isinstance annotation_value TypeVar then
    if negb is_class_value then
      Ok {[ annotation_name := vs_py__class__ value_set ]}
    else Ok {[ annotation_name := value_set ]}
  else if isinstance annotation_value TypingClassValueWithIndex then
    if decide (annotation_name = "Type") then
      let given := get_generics annotation_value in
      match given with
      | [] => Ok type_var_dict
      | given0 :: _ =>
          if is_class_value then
            for_each (elements value_set)
              (fun element type_var_dict =>
                 let element_name := py__name__ element in
                 if decide (annotation_name = element_name) then
                   let annotation_generics := get_generics annotation_value in
                   let actual_generics := get_generics element in
                   merge_zipped
                     (fun v actual => _infer_type_vars depth v actual true)
                     annotation_generics actual_generics type_var_dict
                 else Ok type_var_dict)
              type_var_dict
          else
            merge_nested
              (fun v => _infer_type_vars depth v value_set true)
              given0 type_var_dict
      end
    else if decide (annotation_name = "Callable") then
      let given := get_generics annotation_value in
      match given with
      | [_; given1] =>
          merge_nested
            (fun v => _infer_type_vars depth v
                        (vs_execute_annotation value_set) false)
            given1 type_var_dict
      | _ => Ok type_var_dict
      end
    else if decide (annotation_name = "Tuple") then
      for_each (elements value_set)
        (fun element type_var_dict =>
           let py_class := get_annotated_class_object element in
           let py_class :=
             if negb (isinstance py_class GenericClass) then element
             else py_class in
           if negb (isinstance py_class DefineGenericBase) then
             Ok type_var_dict                                   (* continue *)
           else
             let annotation_generics := get_generics annotation_value in
             match elements (execute_annotation annotation_value) with
             | [tuple_annotation] =>
                 if _is_homogenous tuple_annotation then
                   generics0 ← getitem annotation_generics 0;
                   merge_nested
                     (fun v => _infer_type_vars depth v
                                 (merge_types_of_iterate value_set) false)
                     generics0 type_var_dict
                 else
                   let actual_generics := get_generics py_class in
                   merge_zipped
                     (fun v actual => _infer_type_vars depth v actual true)
                     annotation_generics actual_generics type_var_dict
             | _ => Raise ValueError
             end)
        type_var_dict
    else Ok type_var_dict
  else if isinstance annotation_value GenericClass then
    if bool_decide (annotation_name = "Iterable") && negb is_class_value then
      let given := get_generics annotation_value in
      match given with
      | [] => Ok type_var_dict
      | given0 :: _ =>
          merge_nested
            (fun v => _infer_type_vars depth v
                        (merge_types_of_iterate value_set) false)
            given0 type_var_dict
      end
    else
      for_each (elements value_set)
        (fun element type_var_dict =>
           if negb (has_is_instance element) then
             Ok type_var_dict                                   (* continue *)
           else
             let py_class :=
               if is_instance element
               then get_annotated_class_object element
               else element in
             walk_mro (fun v actual => _infer_type_vars depth v actual true)
               annotation_value (py__mro__ py_class) type_var_dict)
        type_var_dict
  else Ok type_var_dict
  end.

Definition infer_type_vars_for_execution (function : Function)
  (arguments : CallArguments) (annotation_dict : gmap string Node)
  : result TypeVarDict :=
  let context := get_default_param_context function in
  let executed_param_names := get_executed_param_names function arguments in
  for_each executed_param_names
    (fun executed_param_name annotation_variable_results =>
       match annotation_dict !! string_name executed_param_name with
       | None => Ok annotation_variable_results     (* KeyError: continue *)
       | Some annotation_node =>
           annotation_variables ←
             find_unknown_type_vars context annotation_node;
           match annotation_variables with
           | [] => Ok annotation_variable_results
           | _ :: _ =>
               let annotation_value_set :=
                 infer_node context annotation_node in
               let kind := get_kind executed_param_name in
               let actual_value_set := infer executed_param_name in
               let actual_value_set :=
                 match kind with
                 | VAR_POSITIONAL => merge_types_of_iterate actual_value_set
                 | VAR_KEYWORD => try_merge_dict_values actual_value_set
                 | _ => actual_value_set
                 end in
               merge_nested
                 (fun ann => _infer_type_vars recursion_limit ann
                               actual_value_set false)
                 annotation_value_set annotation_variable_results
           end
       end)
    ∅.

(** [ValueSet.from_sets(ann.define_generics(type_var_dict)
       if isinstance(ann, (DefineGenericBase, TypeVar)) else ValueSet({ann})
       for ann in annotation_values)] *)
Definition substitute_type_vars (type_var_dict : TypeVarDict)
  (annotation_values : ValueSet) : ValueSet :=
  set_bind (fun ann =>
              if isinstance ann DefineGenericBase || isinstance ann TypeVar
              then define_generics ann type_var_dict
              else {[ ann ]})
           annotation_values.

(** [lazy_params] holds what each lazy parameter of the callable infers
    to. *)
Definition infer_type_vars_for_callable (arguments : CallArguments)
  (lazy_params : list ValueSet) : result TypeVarDict :=
  for_each (zip (unpack arguments) lazy_params)
    (fun pair annotation_variable_results =>
       let callable_param_values := pair.2 in
       let actual_value_set := pair.1.2 in
       merge_nested
         (fun v => _infer_type_vars recursion_limit v actual_value_set false)
         callable_param_values annotation_variable_results)
    ∅.

(** [all_type_vars.update(type_var_dict)] is the union of the two
    dictionaries in which the new one wins. *)
Definition infer_return_for_callable (arguments : CallArguments)
  (param_values result_values : ValueSet) : result ValueSet :=
  all_type_vars ←
    for_each (elements param_values)
      (fun pv (all_type_vars : TypeVarDict) =>
         if decide (array_type pv = Some "list") then
           type_var_dict ← infer_type_vars_for_callable arguments
                             (py__iter__ pv);
           mret (type_var_dict ∪ all_type_vars)
         else Ok all_type_vars)
      ∅;
  mret (vs_execute_annotation
          (substitute_type_vars all_type_vars result_values)).

(** The memoisation of [inference_state_method_cache] is not modelled. *)
Definition infer_return_types (function : Function)
  (arguments : CallArguments) : logged ValueSet :=
  let all_annotations := py__annotations__ (tree_node function) in
  match all_annotations !! "return" with
  | None =>
      let node := tree_node function in
      match funcdef_comment node with
      | None => mret NO_VALUES
      | Some comment =>
          match re_match_group1 return_comment_re comment with
          | None => mret NO_VALUES
          | Some group1 =>
              value_set ← _infer_annotation_string
                            (get_default_param_context function)
                            (strip group1) None;
              mret (vs_execute_annotation value_set)
          end
      end
  | Some annotation =>
      let context := get_default_param_context function in
      unknown_type_vars ← lift (find_unknown_type_vars context annotation);
      annotation_values ← infer_annotation context annotation;
      match unknown_type_vars with
      | [] => mret (vs_execute_annotation annotation_values)
      | _ :: _ =>
          type_var_dict ← lift (infer_type_vars_for_execution function
                                   arguments all_annotations);
          mret (vs_execute_annotation
                  (substitute_type_vars type_var_dict annotation_values))
      end
  end.

End annotation.

(** *** Type comments on assignments, [for] and [with] *)

Section comment_hints.
Context {E : Engine}.

(** The loop of lines 519 to 527.  The syntax trees of the model carry no
    identity, so the name that is looked for is given by its position among
    the children of [varlist]: [child == name] holds at that position and
    nowhere else.  The result is [None] when the loop runs to its end, where
    the source returns the empty list. *)
Fixpoint count_targets (children_ : list Node) (name_position index : nat)
  : option nat :=
  match children_ with
  | [] => None
  | child :: rest =>
      match name_position with
      | O => Some index                                          (* break *)
      | S position =>
          if decide (node_type child = "operator")
          then count_targets rest position index                 (* continue *)
          else count_targets rest position (S index)
      end
  end.

(** [comment] is [get_following_comment_same_line(node)]; [name_position]
    is the position of [name] among the children of [varlist], [None] when
    it is not one of them.  The empty list that the source returns in the
    degenerate cases is the empty value set here. *)
Definition _find_type_from_comment_hint (context : InferContext)
  (comment : option string) (varlist : Node) (name_position : option nat)
  : logged ValueSet :=
  let continue (index : option nat) : logged ValueSet :=
    match comment with
    | None => mret NO_VALUES
    | Some comment =>
        match re_match_group1 hint_comment_re comment with
        | None => mret NO_VALUES
        | Some group1 =>
            value_set ← _infer_annotation_string context (strip group1) index;
            mret (vs_execute_annotation value_set)
        end
    end in
  if bool_decide (node_type varlist
                  ∈ ["testlist_star_expr"; "exprlist"; "testlist"]) then
    cs ← lift (children varlist);
    match name_position ≫= (fun position => count_targets cs position 0) with
    | None => mret NO_VALUES
    | Some index => continue (Some index)
    end
  else continue None.

Definition find_type_from_comment_hint_for (context : InferContext)
  (node : Node) (comment : option string) (name_position : option nat)
  : logged ValueSet :=
  varlist ← lift (cs ← children node; getitem cs 1);
  _find_type_from_comment_hint context comment varlist name_position.

Definition find_type_from_comment_hint_assign (context : InferContext)
  (node : Node) (comment : option string) (name_position : option nat)
  : logged ValueSet :=
  varlist ← lift (cs ← children node; getitem cs 0);
  _find_type_from_comment_hint context comment varlist name_position.

End comment_hints.

(** A list of targets with a comma between each two, as the children of a
    [testlist_star_expr], [exprlist] or [testlist] node are. *)
Fixpoint with_commas (targets : list Node) : list Node :=
  match targets with
  | [] => []
  | [target] => [target]
  | target :: rest => target :: Leaf "operator" "" "," :: with_commas rest
  end.

(** A dictionary holds no empty value set. *)
Definition no_empty_bindings (d : TypeVarDict) : Prop :=
  forall k values, d !! k = Some values -> values ≠ ∅.

(** The results that [rec'] gives are those of [rec], and more. *)
Definition extends {A B} (rec rec' : A -> result B) : Prop :=
  forall x r, rec x = Ok r -> rec' x = Ok r.

Section further_notions.
Context {E : Engine}.

(** What [check_node] keeps of the list it is given. *)
Definition grows_by_type_vars (found found' : list Value) : Prop :=
  found `prefix_of` found'
  ∧ (NoDup found -> NoDup found')
  ∧ (forall v, v ∈ found' -> v ∈ found ∨ isinstance v TypeVar = true).

End further_notions.

(** The dictionary of a result, empty when it raised. *)
Definition binding_or_empty (r : result TypeVarDict) : TypeVarDict :=
  match r with
  | Ok d => d
  | Raise _ => ∅
  end.

(** What one key of the merged dictionary holds. *)
Definition merged_binding (old : option ValueSet) (new : option ValueSet)
  : option ValueSet :=
  match new with
  | Some values =>
      if decide (values ≠ ∅) then Some (default ∅ old ∪ values) else old
  | None => old
  end.


Section further_notions2.
Context {E : Engine}.


(** A value is neither parameterized nor a type variable, so that
    substitution leaves it alone. *)
Definition plain_value (v : Value) : Prop :=
  isinstance v DefineGenericBase = false ∧ isinstance v TypeVar = false.

End further_notions2.

(** A parameter without annotation, at position [index] among the [count]
    parameters of a header that is followed by [comment]; and a function on
    its definition. *)
Definition commented_param (comment : option string) (count index : nat)
  : Param :=
  {| param_annotation := None; param_name := "_"; star_count := 0;
     all_params_len := count; param_index := index;
     param_comment := comment |}.

Definition function_value_of (funcdef : FuncDef) (context : InferContext)
  (bound : bool) : Function :=
  {| tree_node := funcdef; get_default_param_context := context;
     is_bound_method := bound |}.
(** The characters of a piece of a comment are all white space, or all
    other than [#]. *)
Definition all_space (s : list ascii) : Prop :=
  Forall (fun c => is_space c = true) s.
Definition no_hash (s : list ascii) : Prop :=
  Forall (fun c => not_hash c = true) s.


Section further_notions3.
Context {E : Engine}.

(** Every key of a dictionary is the name of a type variable. *)
Definition binds_type_variables (d : TypeVarDict) : Prop :=
  forall k, is_Some (d !! k) ->
            exists T, isinstance T TypeVar = true ∧ py__name__ T = k.


(** A value passes the filter of [_infer_annotation_string] for an index. *)
Definition tuple_for_index (index : nat) (value : Value) : Prop :=
  array_type value = Some "tuple" ∧ index ≤ length (py__iter__ value).

#[global] Instance tuple_for_index_dec (index : nat) (value : Value) :
  Decision (tuple_for_index index value).
Proof. unfold tuple_for_index. apply _. Defined.

(** What unification is given for a parameter of a call: the argument's
    values, iterated over for [*args] and its dictionary values for
    [**kwargs] (lines 266 to 271). *)
Definition argument_values (p : ExecutedParamName) : ValueSet :=
  match get_kind p with
  | VAR_POSITIONAL => merge_types_of_iterate (infer p)
  | VAR_KEYWORD => try_merge_dict_values (infer p)
  | _ => infer p
  end.

(** A parameter of a call has no annotation, or one in which no type
    variable is found. *)
Definition skipped_parameter (context : InferContext)
  (annotation_dict : gmap string Node) (p : ExecutedParamName) : Prop :=
  match annotation_dict !! string_name p with
  | None => True
  | Some annotation_node =>
      find_unknown_type_vars context annotation_node = Ok []
  end.

End further_notions3.
(** ** The syntax trees of the examples

    What parso returns for the two declaration texts that the docstring and
    the specification use. *)

Definition name (s : string) : Node := Leaf "name" "" s.
Definition operator (s : string) : Node := Leaf "operator" "" s.

(** what parso returns for the text [x] *)
Definition parso_module_x : Node :=
  BaseNode "file_input" [name "x"; Leaf "endmarker" "" ""].

(** what parso returns for the text [foo, Bar[baz, biz]] *)
Definition Bar_baz_biz : Node :=
  BaseNode "atom_expr"
    [Leaf "name" " " "Bar";
     BaseNode "trailer"
       [operator "[";
        BaseNode "subscriptlist"
          [name "baz"; operator ","; Leaf "name" " " "biz"];
        operator "]"]].
Definition parso_module_foo_bar : Node :=
  BaseNode "file_input"
    [BaseNode "testlist_star_expr" [name "foo"; operator ","; Bar_baz_biz];
     Leaf "endmarker" "" ""].

(** ** Notions used to state the properties *)

Section notions.
Context {E : Engine}.

(** The first class of a method-resolution order that has the name of the
    annotation and is parameterized. *)
Definition find_generic_ancestor (annotation_value : Value)
  (mro : list Value) : option Value :=
  List.find (fun parent_class =>
               bool_decide (py__name__ annotation_value
                            = py__name__ parent_class)
               && isinstance parent_class DefineGenericBase)
            mro.

(** The walk as the specification words it: stop at the first class that
    has the name of the annotation, and pair the generics only when that
    class is parameterized. *)
Definition spec_walk_mro (rec : Value -> ValueSet -> result TypeVarDict)
  (annotation_value : Value) (mro : list Value)
  (type_var_dict : TypeVarDict) : result TypeVarDict :=
  match List.find (fun parent_class =>
                     bool_decide (py__name__ annotation_value
                                  = py__name__ parent_class))
                  mro with
  | Some parent_class =>
      if isinstance parent_class DefineGenericBase then
        merge_zipped rec (get_generics annotation_value)
          (get_generics parent_class) type_var_dict
      else Ok type_var_dict
  | None => Ok type_var_dict
  end.

(** Type-variable discovery as the specification words it: a
    subscript-list is flattened into its elements, and any other node, a
    slice included, is yielded itself. *)
Definition spec_unpack_subscriptlist (subscriptlist : Node)
  : result (list Node) :=
  if decide (node_type subscriptlist = "subscriptlist") then
    cs ← children subscriptlist;
    mret (every_other cs)
  else mret [subscriptlist].

(** The two ways [infer_return_types] ends for a syntactic return
    annotation: executing the resolved annotation as it is, and executing
    it after the type variables bound by the call are substituted. *)
Definition direct_path (context : InferContext) (annotation : Node)
  : logged ValueSet :=
  annotation_values ← infer_annotation context annotation;
  mret (vs_execute_annotation annotation_values).

Definition unification_path (function : Function)
  (arguments : CallArguments) (annotation : Node) : logged ValueSet :=
  annotation_values ← infer_annotation
                        (get_default_param_context function) annotation;
  type_var_dict ← lift (infer_type_vars_for_execution function arguments
                           (py__annotations__ (tree_node function)));
  mret (vs_execute_annotation
          (substitute_type_vars type_var_dict annotation_values)).

(** An annotation references type variables that are not resolved. *)
Definition references_type_vars (context : InferContext) (node : Node)
  : Prop :=
  exists type_var rest,
    find_unknown_type_vars context node = Ok (type_var :: rest).


(** Two type variables have separate bindings in a dictionary: looking
    each up gives the value set that was bound to it. *)
Definition kept_separate (d : TypeVarDict) (T T' : Value)
  (bound bound' : ValueSet) : Prop :=
  d !! py__name__ T = Some bound ∧ d !! py__name__ T' = Some bound'.

End notions.

(** * A small world to run the module in

    One concrete [Engine]: the classes [int] and [str] with an instance of
    each, two type variables declared as [TypeVar('T')] in two modules and
    imported as [T1] and [T2], [Type[T1]], a generic class [Foo[T1]] and a
    user class [Foo] that derives from [Foo[int]], and a literal tuple. *)

Module Demo.

Definition int_class : Value := Obj 1.
Definition str_class : Value := Obj 2.
Definition int_instance : Value := Obj 3.
Definition str_instance : Value := Obj 4.
Definition object_class : Value := Obj 5.
Definition tuple_class : Value := Obj 6.
Definition dict_class : Value := Obj 7.
(** two declarations of a type variable, both spelled [T] *)
Definition T1 : Value := Obj 10.
Definition T2 : Value := Obj 11.
(** the annotation [Type[T1]] *)
Definition Type_T1 : Value := Obj 20.
(** the annotation [Foo[T1]] *)
Definition Foo_T1 : Value := Obj 30.
(** [class Foo(lib.Foo[int])]: a plain class named like its generic base *)
Definition Foo_user : Value := Obj 31.
Definition Foo_int : Value := Obj 32.
Definition foo_instance : Value := Obj 33.
(** the value of the literal tuple [int, str] *)
Definition int_str_tuple : Value := Obj 40.
(** the string literal ['T1'] used as an annotation *)
Definition T1_literal : Value := Obj 50.

(** what the grammar returns for a text parsed as [eval_input] *)
Definition eval_input (expression : Node) : Node :=
  BaseNode "eval_input" [expression; Leaf "endmarker" "" ""].
Definition int_str_node : Node :=
  eval_input
    (BaseNode "testlist" [name "int"; operator ","; Leaf "name" " " "str"]).
Definition T1_literal_node : Node := Leaf "string" "" "'T1'".

Definition demo_parse (text : string) : result Node :=
  if decide (text = "x") then Ok parso_module_x
  else if decide (text = "foo, Bar[baz, biz]") then Ok parso_module_foo_bar
  else Raise ParserSyntaxError.

Definition demo_grammar_parse (text : string) : result Node :=
  if decide (text = "T1") then Ok (eval_input (name "T1"))
  else if decide (text = "int") then Ok (eval_input (name "int"))
  else if decide (text = "int, str") then Ok int_str_node
  else Raise ParserSyntaxError.

Definition demo_infer_node (context : InferContext) (node : Node) : ValueSet :=
  let code := strip (get_code node) in
  if decide (code = "T1") then {[ T1 ]}
  else if decide (code = "T2") then {[ T2 ]}
  else if decide (code = "int") then {[ int_class ]}
  else if decide (code = "str") then {[ str_class ]}
  else if decide (code = "int, str") then {[ int_str_tuple ]}
  else if decide (code = "'T1'") then {[ T1_literal ]}
  else ∅.

Definition demo_isinstance (v : Value) (c : PyClass) : bool :=
  match c with
  | TypeVar => bool_decide (v ∈ [T1; T2])
  | TypingClassValueWithIndex => bool_decide (v = Type_T1)
  | GenericClass => bool_decide (v ∈ [Foo_T1; Foo_int])
  | DefineGenericBase => bool_decide (v ∈ [Type_T1; Foo_T1; Foo_int])
  end.

Definition demo_py__name__ (v : Value) : string :=
  if decide (v = int_class) then "int"
  else if decide (v = str_class) then "str"
  else if decide (v = object_class) then "object"
  else if decide (v ∈ [T1; T2]) then "T"
  else if decide (v = Type_T1) then "Type"
  else if decide (v ∈ [Foo_T1; Foo_user; Foo_int]) then "Foo"
  else "".

Definition demo_py__class__ (v : Value) : Value :=
  if decide (v = int_instance) then int_class
  else if decide (v = str_instance) then str_class
  else if decide (v = foo_instance) then Foo_user
  else v.

Definition demo_py__mro__ (v : Value) : list Value :=
  if decide (v = Foo_user) then [Foo_user; Foo_int; object_class]
  else if decide (v = Foo_int) then [Foo_int; object_class]
  else [v; object_class].

Definition demo_get_generics (v : Value) : list ValueSet :=
  if decide (v ∈ [Type_T1; Foo_T1]) then [ {[ T1 ]} ]
  else if decide (v = Foo_int) then [ {[ int_class ]} ]
  else [].

Definition demo_execute_annotation (v : Value) : ValueSet :=
  if decide (v = int_class) then {[ int_instance ]}
  else if decide (v = str_class) then {[ str_instance ]}
  else if decide (v = Foo_user) then {[ foo_instance ]}
  else ∅.

(** a type variable looks itself up by name and stays when unbound *)
Definition demo_define_generics (v : Value) (d : TypeVarDict) : ValueSet :=
  if demo_isinstance v TypeVar then
    match d !! demo_py__name__ v with
    | Some found => if decide (found ≠ ∅) then found else {[ v ]}
    | None => {[ v ]}
    end
  else {[ v ]}.

Definition demo_py__iter__ (v : Value) : list ValueSet :=
  if decide (v = int_str_tuple) then [ {[ int_class ]}; {[ str_class ]} ]
  else [].

(** every call binds [x] to an [int] and [y] to a [str] *)
Definition demo_executed (f : Function) (a : CallArguments)
  : list ExecutedParamName :=
  [ {| string_name := "x"; get_kind := POSITIONAL_OR_KEYWORD;
       infer := {[ int_instance ]} |};
    {| string_name := "y"; get_kind := POSITIONAL_OR_KEYWORD;
       infer := {[ str_instance ]} |} ].

Definition engine : Engine := {|
  grammar_parse := demo_grammar_parse;
  parse := demo_parse;
  anchor := fun _ node => node;
  infer_node := demo_infer_node;
  get_executed_param_names := demo_executed;
  unpack := fun _ => [(None, {[ int_instance ]}); (None, {[ str_instance ]})];
  builtin_from_name := fun s =>
    if decide (s = "tuple") then tuple_class
    else if decide (s = "dict") then dict_class
    else if decide (s = "str") then str_class
    else object_class;
  new_GenericClass := fun class_value generics =>
    Obj (100 * length generics + obj_id class_value);
  recursion_limit := 1000;
  isinstance := demo_isinstance;
  is_string := fun v => bool_decide (v = T1_literal);
  get_safe_value := fun v => if decide (v = T1_literal) then "T1" else "";
  py__name__ := demo_py__name__;
  py__class__ := demo_py__class__;
  py__mro__ := demo_py__mro__;
  get_generics := demo_get_generics;
  execute_annotation := demo_execute_annotation;
  define_generics := demo_define_generics;
  has_is_instance := fun _ => true;
  is_instance := fun v => bool_decide (v ∈ [int_instance; str_instance; foo_instance]);
  get_annotated_class_object := demo_py__class__;
  _is_homogenous := fun _ => false;
  array_type := fun v =>
    if decide (v = int_str_tuple) then Some "tuple" else None;
  py__iter__ := demo_py__iter__;
  py__simple_getitem__ := fun v index =>
    match demo_py__iter__ v !! index with
    | Some values => Ok values
    | None => Raise SimpleGetItemNotFound
    end;
  merge_types_of_iterate := fun vs => ∅;
  try_merge_dict_values := fun vs => ∅
|}.

Definition context : InferContext := Ctx 0.
Definition arguments : CallArguments := Args 0.

Definition merge_example_a : TypeVarDict := {[ "T" := {[ Obj 1 ]} ]}.
Definition merge_example_b : TypeVarDict :=
  {[ "T" := {[ Obj 2 ]}; "U" := {[ Obj 3 ]} ]}.

Definition plain_param (name_ : string) (annotation : option Node)
  (index count : nat) : Param :=
  {| param_annotation := annotation; param_name := name_; star_count := 0;
     all_params_len := count; param_index := index; param_comment := None |}.

Definition function_of (funcdef : FuncDef) : Function :=
  {| tree_node := funcdef; get_default_param_context := context;
     is_bound_method := false |}.

(** [def g(x: T1, y: T2): ...] *)
Definition g : Function :=
  function_of
    {| get_params := [plain_param "x" (Some (name "T1")) 0 2;
                      plain_param "y" (Some (name "T2")) 1 2];
       funcdef_annotation := None; funcdef_comment := None |}.

(** [def f(x: T1) -> 'T1': ...] *)
Definition f_forward : Function :=
  function_of
    {| get_params := [plain_param "x" (Some (name "T1")) 0 1];
       funcdef_annotation := Some T1_literal_node;
       funcdef_comment := None |}.

(** [def f(x: T1) -> T1: ...] *)
Definition f_identity : Function :=
  function_of
    {| get_params := [plain_param "x" (Some (name "T1")) 0 1];
       funcdef_annotation := Some (name "T1");
       funcdef_comment := None |}.

(** the slice [T2:T2] and the annotation [Foo[T2:T2, T1]] *)
Definition slice_T2 : Node :=
  BaseNode "subscript" [name "T2"; operator ":"; name "T2"].
Definition subscriptlist_slice_T1 : Node :=
  BaseNode "subscriptlist" [slice_T2; operator ","; Leaf "name" " " "T1"].
Definition Foo_slice_T1 : Node :=
  BaseNode "atom_expr"
    [name "Foo";
     BaseNode "trailer"
       [operator "["; subscriptlist_slice_T1; operator "]"]].


(** the parameter [x] of [def f(x):  # type: (int, -> str], and that
    function *)
Definition unbalanced_comment : string := "# type: (int, -> str".
Definition unbalanced_param : Param :=
  {| param_annotation := None; param_name := "x"; star_count := 0;
     all_params_len := 1; param_index := 0;
     param_comment := Some unbalanced_comment |}.
Definition unbalanced_function : Function :=
  function_of
    {| get_params := [unbalanced_param]; funcdef_annotation := None;
       funcdef_comment := Some unbalanced_comment |}.

End Demo.

(** * A second world, with tuples, iterables and callables

    The first world, extended by the annotations [Tuple[T1, ...]] and
    [Iterable[T1]], a tuple annotation that executes to nothing, a list of
    [int] and the list of parameter shapes of a callable. *)

Module Demo2.

(** a type variable declared as [TypeVar('U')] *)
Definition U : Value := Obj 12.
(** the annotation [Tuple[T1, ...]] and the tuple it executes to *)
Definition Tuple_T1 : Value := Obj 60.
Definition tuple_of_T1 : Value := Obj 62.
(** a [Tuple] annotation that executes to no value *)
Definition Tuple_unresolved : Value := Obj 61.
(** the annotation [Iterable[T1]] *)
Definition Iterable_T1 : Value := Obj 63.
(** an instance of [list[int]] and its class *)
Definition list_instance : Value := Obj 64.
Definition list_int_class : Value := Obj 65.
(** the list [[T1, T2]] of parameter shapes of a [Callable] *)
Definition callable_params : Value := Obj 66.
(** the annotation [Callable[[T1, T2], T1]] *)
Definition Callable_T1 : Value := Obj 67.
(** the annotation [Tuple[T1, U]] and the tuple it executes to *)
Definition Tuple_T1_U : Value := Obj 68.
Definition tuple_of_T1_U : Value := Obj 69.
(** an instance of [Tuple[int, str]] and its class *)
Definition pair_instance : Value := Obj 70.
Definition pair_class : Value := Obj 71.

Definition demo2_isinstance (v : Value) (c : PyClass) : bool :=
  match c with
  | TypeVar => bool_decide (v = U) || Demo.demo_isinstance v c
  | TypingClassValueWithIndex =>
      bool_decide (v ∈ [Tuple_T1; Tuple_unresolved; Callable_T1; Tuple_T1_U])
      || Demo.demo_isinstance v c
  | GenericClass =>
      bool_decide (v ∈ [Iterable_T1; list_int_class; pair_class])
      || Demo.demo_isinstance v c
  | DefineGenericBase =>
      bool_decide (v ∈ [Tuple_T1; Tuple_unresolved; Callable_T1; Tuple_T1_U;
                        Iterable_T1; list_int_class; pair_class])
      || Demo.demo_isinstance v c
  end.

Definition demo2_py__name__ (v : Value) : string :=
  if decide (v = U) then "U"
  else if decide (v ∈ [Tuple_T1; Tuple_unresolved; Tuple_T1_U]) then "Tuple"
  else if decide (v = Callable_T1) then "Callable"
  else if decide (v = Iterable_T1) then "Iterable"
  else if decide (v = list_int_class) then "list"
  else if decide (v = pair_class) then "tuple"
  else Demo.demo_py__name__ v.

Definition demo2_get_generics (v : Value) : list ValueSet :=
  if decide (v ∈ [Tuple_T1; Tuple_unresolved; Iterable_T1])
  then [ {[ Demo.T1 ]} ]
  else if decide (v = Tuple_T1_U) then [ {[ Demo.T1 ]}; {[ U ]} ]
  else if decide (v = Callable_T1)
  then [ {[ callable_params ]}; {[ Demo.T1 ]} ]
  else if decide (v = list_int_class) then [ {[ Demo.int_class ]} ]
  else if decide (v = pair_class)
  then [ {[ Demo.int_class ]}; {[ Demo.str_class ]} ]
  else Demo.demo_get_generics v.

Definition demo2_class_of (v : Value) : Value :=
  if decide (v = list_instance) then list_int_class
  else if decide (v = pair_instance) then pair_class
  else Demo.demo_py__class__ v.

Definition engine : Engine := {|
  grammar_parse := grammar_parse (Engine := Demo.engine);
  parse := parse (Engine := Demo.engine);
  anchor := anchor (Engine := Demo.engine);
  infer_node := infer_node (Engine := Demo.engine);
  get_executed_param_names :=
    get_executed_param_names (Engine := Demo.engine);
  unpack := unpack (Engine := Demo.engine);
  builtin_from_name := builtin_from_name (Engine := Demo.engine);
  new_GenericClass := new_GenericClass (Engine := Demo.engine);
  recursion_limit := 1000;
  isinstance := demo2_isinstance;
  is_string := is_string (Engine := Demo.engine);
  get_safe_value := get_safe_value (Engine := Demo.engine);
  py__name__ := demo2_py__name__;
  py__class__ := demo2_class_of;
  py__mro__ := Demo.demo_py__mro__;
  get_generics := demo2_get_generics;
  execute_annotation := fun v =>
    if decide (v = Tuple_T1) then {[ tuple_of_T1 ]}
    else if decide (v = Tuple_T1_U) then {[ tuple_of_T1_U ]}
    else Demo.demo_execute_annotation v;
  define_generics := Demo.demo_define_generics;
  has_is_instance := fun _ => true;
  is_instance := fun v =>
    bool_decide (v ∈ [list_instance; pair_instance])
    || is_instance (Engine := Demo.engine) v;
  get_annotated_class_object := demo2_class_of;
  _is_homogenous := fun v => bool_decide (v = tuple_of_T1);
  array_type := fun v =>
    if decide (v = callable_params) then Some "list"
    else array_type (Engine := Demo.engine) v;
  py__iter__ := fun v =>
    if decide (v = callable_params) then [ {[ Demo.T1 ]}; {[ Demo.T2 ]} ]
    else Demo.demo_py__iter__ v;
  py__simple_getitem__ := py__simple_getitem__ (Engine := Demo.engine);
  merge_types_of_iterate := fun vs =>
    if decide (list_instance ∈ vs) then {[ Demo.int_instance ]} else ∅;
  try_merge_dict_values := fun vs => ∅
|}.

(** [def f(x: T1) -> int: ...] *)
Definition f_int : Function :=
  Demo.function_of
    {| get_params := [Demo.plain_param "x" (Some (name "T1")) 0 1];
       funcdef_annotation := Some (name "int");
       funcdef_comment := None |}.

End Demo2.

(** * Properties *)

(** ** The regular expressions on examples *)

Example param_comment_re_ex :
  re_match_group1 param_comment_re "# type: (foo, Bar[baz, biz]) -> None"
  = Some "foo, Bar[baz, biz]".
Proof. reflexivity. Qed.

Example param_comment_re_nested :
  re_match_group1 param_comment_re "#type:(Callable[[], int]) ) ->x"
  = Some "Callable[[], int]) ".
Proof. reflexivity. Qed.

Example return_comment_re_ex :
  re_match_group1 return_comment_re "# type: (int) ->  List[str]  # noqa"
  = Some "List[str]  ".
Proof. reflexivity. Qed.

Example param_comment_re_unbalanced :
  re_match_group1 param_comment_re "# type: (int, -> str" = None.
Proof. reflexivity. Qed.


(** ** Merging type-variable dictionaries *)

Lemma lookup_merge_type_var_dicts (base_dict new_dict : TypeVarDict) k :
  _merge_type_var_dicts base_dict new_dict !! k
  = merged_binding (base_dict !! k) (new_dict !! k).
Proof.
  unfold _merge_type_var_dicts.
  apply (map_fold_weak_ind
           (fun r m => r !! k = merged_binding (base_dict !! k) (m !! k)));
    clear new_dict.
  - by rewrite lookup_empty.
  - intros i x m r Hi IH. destruct (decide (i = k)) as [->|Hne].
    + rewrite lookup_insert_eq. rewrite Hi in IH. simpl in IH.
      unfold merged_binding. case_decide; [|done].
      rewrite <- IH. destruct (r !! k) as [old|] eqn:Hr;
        rewrite lookup_insert_eq; simpl; [done|].
      by rewrite (left_id_L ∅ (∪)).
    + rewrite (lookup_insert_ne m), <- IH by done.
      case_decide; [|done].
      destruct (r !! i); by rewrite lookup_insert_ne.
Qed.

Lemma merged_binding_swap o a b :
  merged_binding (merged_binding o a) b = merged_binding (merged_binding o b) a.
Proof.
  unfold merged_binding.
  destruct a as [va|], b as [vb|]; try done.
  destruct (decide (va ≠ ∅)), (decide (vb ≠ ∅)); try done.
  destruct o; simpl; f_equal; set_solver.
Qed.

Lemma merged_binding_assoc o a b :
  merged_binding o (merged_binding a b) = merged_binding (merged_binding o a) b.
Proof.
  unfold merged_binding.
  destruct a as [va|], b as [vb|]; try done.
  - destruct (decide (vb ≠ ∅)) as [Hb|Hb]; simpl; [|done].
    destruct (decide (va ∪ vb ≠ ∅)) as [_|Hab];
      [|apply dec_stable in Hab; set_solver].
    destruct (decide (va ≠ ∅)) as [Ha|Ha%dec_stable]; destruct o; simpl;
      f_equal; set_solver.
  - destruct (decide (vb ≠ ∅)) as [Hb|Hb]; simpl; [|done].
    destruct (decide (∅ ∪ vb ≠ ∅)) as [_|Hab];
      [|apply dec_stable in Hab; set_solver].
    destruct o; simpl; f_equal; set_solver.
Qed.

Lemma merge_type_var_dicts_swap (base a b : TypeVarDict) :
  _merge_type_var_dicts (_merge_type_var_dicts base a) b
  = _merge_type_var_dicts (_merge_type_var_dicts base b) a.
Proof.
  apply map_eq; intros k.
  rewrite !lookup_merge_type_var_dicts. apply merged_binding_swap.
Qed.

Lemma merge_type_var_dicts_assoc (a b c : TypeVarDict) :
  _merge_type_var_dicts a (_merge_type_var_dicts b c)
  = _merge_type_var_dicts (_merge_type_var_dicts a b) c.
Proof.
  apply map_eq; intros k.
  rewrite !lookup_merge_type_var_dicts. apply merged_binding_assoc.
Qed.

Lemma merge_type_var_dicts_permutation (dicts dicts' : list TypeVarDict) :
  dicts ≡ₚ dicts' ->
  forall base,
    foldl _merge_type_var_dicts base dicts
    = foldl _merge_type_var_dicts base dicts'.
Proof.
  induction 1 as [|d l l' _ IH|d1 d2 l|l1 l2 l3 _ IH1 _ IH2]; intros base; simpl.
  - done.
  - apply IH.
  - by rewrite merge_type_var_dicts_swap.
  - by rewrite IH1.
Qed.


Lemma merge_loop_ok {A} (bindings : A -> result TypeVarDict) (l : list A)
  (base r : TypeVarDict) :
  for_each l (fun x d => new_dict ← bindings x;
                         mret (_merge_type_var_dicts d new_dict)) base
  = Ok r
  <-> Forall (fun x => exists d, bindings x = Ok d) l
      ∧ r = foldl _merge_type_var_dicts base
              (map (fun x => binding_or_empty (bindings x)) l).
Proof.
  revert base. induction l as [|x l IH]; intros base; simpl.
  - split; [intros [= <-]; by split|]. by intros [_ ->].
  - destruct (bindings x) as [d|e] eqn:Hx; simpl.
    + rewrite IH. split; intros [Hall ->]; (split; [|done]).
      * constructor; [by exists d|done].
      * by inversion Hall.
    + split; [done|]. intros [Hall _]. inversion Hall as [|? ? [d Hd]].
      congruence.
Qed.

(** C5.  Merging type-variable dictionaries is a union per variable that
    never overwrites: after [_merge_type_var_dicts base new], a variable
    bound in both holds the union of the two value sets.  A dictionary that
    has no binding for a variable, or an empty one, leaves the variable as
    it was.  The merge is commutative and associative: two dictionaries can
    be merged into an accumulator in either order, merging a merged
    dictionary equals merging its parts one after the other, and merging
    the dictionaries of a collection in any order ([dicts'] a permutation of
    [dicts]) yields the same final dictionary.  So the loop of the module
    that unifies each of a collection of values and merges what it gets
    ends with the same dictionary whatever the order of the collection. *)
Theorem merge_type_var_dicts_union_any_order
  (base a b c : TypeVarDict) (dicts dicts' : list TypeVarDict)
  (rec : Value -> result TypeVarDict) (values values' : list Value)
  (Horder : dicts ≡ₚ dicts') (Hvalues : values ≡ₚ values') :
  (forall k old new,
      base !! k = Some old -> a !! k = Some new ->
      _merge_type_var_dicts base a !! k = Some (old ∪ new))
  ∧ (forall k new,
        base !! k = None -> a !! k = Some new -> new ≠ ∅ ->
        _merge_type_var_dicts base a !! k = Some new)
  ∧ (forall k,
        a !! k = None ∨ a !! k = Some ∅ ->
        _merge_type_var_dicts base a !! k = base !! k)
  ∧ _merge_type_var_dicts (_merge_type_var_dicts base a) b
    = _merge_type_var_dicts (_merge_type_var_dicts base b) a
  ∧ _merge_type_var_dicts a (_merge_type_var_dicts b c)
    = _merge_type_var_dicts (_merge_type_var_dicts a b) c
  ∧ foldl _merge_type_var_dicts base dicts
    = foldl _merge_type_var_dicts base dicts'
  ∧ (forall final,
        for_each values
          (fun v d => new_dict ← rec v;
                      mret (_merge_type_var_dicts d new_dict)) base
        = Ok final ->
        for_each values'
          (fun v d => new_dict ← rec v;
                      mret (_merge_type_var_dicts d new_dict)) base
        = Ok final).
Proof.
  split; [|split; [|split; [|split; [|split; [|split]]]]].
  - intros k old new Hold Hnew.
    rewrite lookup_merge_type_var_dicts, Hold, Hnew. unfold merged_binding.
    destruct (decide (new ≠ ∅)) as [_|Hempty%dec_stable]; simpl; [done|].
    f_equal. set_solver.
  - intros k new Hold Hnew Hne.
    rewrite lookup_merge_type_var_dicts, Hold, Hnew. unfold merged_binding.
    destruct (decide (new ≠ ∅)); [|done]. simpl. f_equal. set_solver.
  - intros k [Hnew|Hnew]; rewrite lookup_merge_type_var_dicts, Hnew; [done|].
    unfold merged_binding. by destruct (decide (∅ ≠ ∅)).
  - apply merge_type_var_dicts_swap.
  - apply merge_type_var_dicts_assoc.
  - by apply merge_type_var_dicts_permutation.
  - intros final [Hall ->]%merge_loop_ok. apply merge_loop_ok. split.
    + by rewrite <- Hvalues.
    + apply merge_type_var_dicts_permutation. by rewrite Hvalues.
Qed.

Lemma merge_type_var_dicts_union_any_order_witness :
  [Demo.merge_example_a; Demo.merge_example_b]
  ≡ₚ [Demo.merge_example_b; Demo.merge_example_a]
  ∧ foldl _merge_type_var_dicts ∅ [Demo.merge_example_a; Demo.merge_example_b]
    = foldl _merge_type_var_dicts ∅
        [Demo.merge_example_b; Demo.merge_example_a].
Proof.
  split; [apply perm_swap|].
  apply (merge_type_var_dicts_union_any_order
           ∅ Demo.merge_example_a Demo.merge_example_b ∅
           [Demo.merge_example_a; Demo.merge_example_b]
           [Demo.merge_example_b; Demo.merge_example_a]
           (fun _ => Ok ∅) [Demo.int_class; Demo.str_class]
           [Demo.str_class; Demo.int_class]);
    apply perm_swap.
Defined.

Example merge_example_result :
  foldl _merge_type_var_dicts ∅ [Demo.merge_example_a; Demo.merge_example_b]
  = {[ "T" := {[ Obj 1; Obj 2 ]}; "U" := {[ Obj 3 ]} ]}.
Proof. vm_compute. reflexivity. Qed.


Example demo_unify_type_var :
  _infer_type_vars (E := Demo.engine) 1 Demo.T1 {[ Demo.int_instance ]} false
  = Ok {[ "T" := {[ Demo.int_class ]} ]}.
Proof. vm_compute. reflexivity. Qed.

Example demo_unify_type_of :
  _infer_type_vars (E := Demo.engine) 2 Demo.Type_T1 {[ Demo.int_class ]} false
  = Ok {[ "T" := {[ Demo.int_class ]} ]}.
Proof. vm_compute. reflexivity. Qed.

Example demo_unify_foo :
  _infer_type_vars (E := Demo.engine) 2 Demo.Foo_T1 {[ Demo.foo_instance ]} false
  = Ok {[ "T" := {[ Demo.int_class ]} ]}.
Proof. vm_compute. reflexivity. Qed.

(** ** Unification *)

Section unification.
Context {E : Engine}.

Lemma merge_singleton_into_empty k (values : ValueSet) :
  values ≠ ∅ -> _merge_type_var_dicts ∅ {[ k := values ]} = {[ k := values ]}.
Proof.
  intros Hne. unfold _merge_type_var_dicts.
  rewrite map_fold_singleton, lookup_empty.
  destruct (decide (values ≠ ∅)); [|done]. apply insert_empty.
Qed.

Lemma for_each_singleton {A S} (x : A) (body : A -> S -> result S) s :
  for_each [x] body s = body x s.
Proof. simpl. by destruct (body x s). Qed.


Lemma walk_mro_find rec annotation_value mro type_var_dict :
  walk_mro rec annotation_value mro type_var_dict
  = match find_generic_ancestor annotation_value mro with
    | Some parent_class =>
        merge_zipped rec (get_generics annotation_value)
          (get_generics parent_class) type_var_dict
    | None => Ok type_var_dict
    end.
Proof.
  unfold find_generic_ancestor.
  induction mro as [|parent_class rest IH]; simpl; [done|].
  destruct (decide (py__name__ annotation_value = py__name__ parent_class))
    as [Hname|Hname].
  - rewrite (bool_decide_eq_true_2 _ Hname). simpl.
    by destruct (isinstance parent_class DefineGenericBase).
  - by rewrite (bool_decide_eq_false_2 _ Hname).
Qed.

Lemma for_each_unchanged {A S} (l : list A) (body : A -> S -> result S) s :
  (forall x s, x ∈ l -> body x s = Ok s) -> for_each l body s = Ok s.
Proof.
  induction l as [|x l IH]; intros Hbody; simpl; [done|].
  rewrite Hbody by apply list_elem_of_here. simpl.
  apply IH. intros y s' Hy. apply Hbody. by apply list_elem_of_further.
Qed.

(** Where every class that has the name of the annotation is parameterized,
    the walk of the code is the walk of the specification. *)
Lemma walk_mro_agrees_with_specification rec annotation_value mro d :
  Forall (fun c => py__name__ annotation_value = py__name__ c ->
                   isinstance c DefineGenericBase = true) mro ->
  walk_mro rec annotation_value mro d
  = spec_walk_mro rec annotation_value mro d.
Proof.
  unfold spec_walk_mro.
  induction 1 as [|c mro Hc _ IH]; simpl; [done|].
  destruct (decide (py__name__ annotation_value = py__name__ c)) as [Hn|Hn].
  - rewrite (bool_decide_eq_true_2 _ Hn), (Hc Hn). done.
  - by rewrite (bool_decide_eq_false_2 _ Hn).
Qed.

(** [Type[...]] entered with the class-level flag already set looks only at
    actual values that are themselves named [Type]. *)
Lemma type_of_entered_class_level depth type_of (value_set : ValueSet) :
  isinstance type_of TypeVar = false ->
  isinstance type_of TypingClassValueWithIndex = true ->
  py__name__ type_of = "Type" ->
  (forall v, v ∈ value_set -> py__name__ v ≠ "Type") ->
  _infer_type_vars (S depth) type_of value_set true = Ok ∅.
Proof.
  intros Hnot_var Htyping Hname Hvalues.
  cbn [_infer_type_vars]. rewrite Hnot_var, Htyping, Hname.
  destruct (decide ("Type" = "Type")); [|done].
  destruct (get_generics type_of) as [|given0 rest]; [done|].
  apply for_each_unchanged. intros v d Hv%elem_of_elements.
  destruct (decide ("Type" = py__name__ v)) as [Heq|_]; [|done].
  by destruct (Hvalues v Hv).
Qed.

(** C6.  When the annotation value is a bare type variable, unification
    binds it (under its name) to the actual value set itself if the
    class-level flag is set, and to the set of the classes of the members of
    the actual value set if the flag is not set.  In particular [Type[T]],
    entered the way the callers of the module enter it (flag not set),
    unifies its type variable class-level, so against a class it yields the
    class itself and neither its class nor its instances. *)
Theorem infer_type_vars_bare_type_variable
  (depth : nat) (T type_of cls : Value) (value_set : ValueSet)
  (rest : list ValueSet)
  (HT : isinstance T TypeVar = true)
  (Hnot_var : isinstance type_of TypeVar = false)
  (Htyping : isinstance type_of TypingClassValueWithIndex = true)
  (Hname : py__name__ type_of = "Type")
  (Hgenerics : get_generics type_of = {[ T ]} :: rest) :
  _infer_type_vars (S depth) T value_set true
  = Ok {[ py__name__ T := value_set ]}
  ∧ _infer_type_vars (S depth) T value_set false
    = Ok {[ py__name__ T := vs_py__class__ value_set ]}
  ∧ (forall c, c ∈ vs_py__class__ value_set
               <-> exists v, v ∈ value_set ∧ c = py__class__ v)
  ∧ _infer_type_vars (S (S depth)) type_of {[ cls ]} false
    = Ok {[ py__name__ T := {[ cls ]} ]}.
Proof.
  repeat split.
  - simpl. by rewrite HT.
  - simpl. by rewrite HT.
  - unfold vs_py__class__. rewrite elem_of_map. naive_solver.
  - unfold vs_py__class__. rewrite elem_of_map. naive_solver.
  - cbn [_infer_type_vars]. rewrite Hnot_var, Htyping, Hname, Hgenerics.
    destruct (decide ("Type" = "Type")); [|done]. cbn [negb].
    unfold merge_nested. rewrite elements_singleton, for_each_singleton.
    rewrite HT. cbn [negb mbind result_bind mret result_ret].
    rewrite merge_singleton_into_empty; [done|]. set_solver.
Qed.

(** C4, as the code has it.  The dictionary that unification produces is
    keyed by the name of the type variable, not by its declaration: two
    type variables with the same name are bound under the same key, so the
    binding of a bare type variable depends on the variable through its name
    only, and when two distinct declarations that share a name are bound
    during one resolution the merged dictionary holds one entry for both,
    with the union of what each was bound to. *)
Theorem infer_type_vars_keyed_by_name
  (depth : nat) (T T' : Value) (value_set value_set' : ValueSet)
  (is_class_value : bool) (d d' : TypeVarDict)
  (Hdistinct : T ≠ T')
  (HT : isinstance T TypeVar = true)
  (HT' : isinstance T' TypeVar = true)
  (Hname : py__name__ T = py__name__ T')
  (Hd : _infer_type_vars (S depth) T value_set is_class_value = Ok d)
  (Hd' : _infer_type_vars (S depth) T' value_set' is_class_value = Ok d')
  (Hbound : value_set ≠ ∅) (Hbound' : value_set' ≠ ∅) :
  _infer_type_vars (S depth) T value_set is_class_value
  = _infer_type_vars (S depth) T' value_set is_class_value
  ∧ dom d = {[ py__name__ T ]} ∧ dom d' = {[ py__name__ T ]}
  ∧ exists bound bound',
      d !! py__name__ T = Some bound ∧ d' !! py__name__ T' = Some bound'
      ∧ _merge_type_var_dicts (_merge_type_var_dicts ∅ d) d'
        = {[ py__name__ T := bound ∪ bound' ]}.
Proof.
  assert (Hclass : forall vs : ValueSet, vs ≠ ∅ -> vs_py__class__ vs ≠ ∅).
  { intros vs Hvs. apply set_choose_L in Hvs as [v Hv].
    unfold vs_py__class__. intros Hempty.
    assert (py__class__ v ∈ (set_map py__class__ vs : ValueSet)) as Hin
      by (apply elem_of_map; eauto).
    rewrite Hempty in Hin. set_solver. }
  simpl in *. rewrite HT in *. rewrite HT' in *. rewrite <- Hname in *.
  split; [done|].
  destruct is_class_value; simpl in *; simplify_eq;
    rewrite !dom_singleton_L; (split; [done|]); (split; [done|]);
    eexists _, _; rewrite !lookup_singleton_eq;
    (split; [done|]); (split; [done|]).
  - rewrite merge_singleton_into_empty by done.
    apply map_eq; intros k. rewrite lookup_merge_type_var_dicts.
    destruct (decide (k = py__name__ T)) as [->|Hk].
    + rewrite !lookup_singleton_eq. simpl.
      by destruct (decide (value_set' ≠ ∅)).
    + by rewrite !lookup_singleton_ne.
  - rewrite merge_singleton_into_empty by auto.
    apply map_eq; intros k. rewrite lookup_merge_type_var_dicts.
    destruct (decide (k = py__name__ T)) as [->|Hk].
    + rewrite !lookup_singleton_eq. simpl.
      destruct (decide (vs_py__class__ value_set' ≠ ∅)) as [|Hn]; [done|].
      by destruct Hn; apply Hclass.
    + by rewrite !lookup_singleton_ne.
Qed.


End unification.

Lemma infer_type_vars_bare_type_variable_witness :
  _infer_type_vars (E := Demo.engine) 2 Demo.Type_T1 {[ Demo.int_class ]} false
  = Ok {[ "T" := {[ Demo.int_class ]} ]}.
Proof.
  refine (proj2 (proj2 (proj2
    (infer_type_vars_bare_type_variable (E := Demo.engine)
       0 Demo.T1 Demo.Type_T1 Demo.int_class ∅ [] _ _ _ _ _))));
    reflexivity.
Defined.

Lemma infer_type_vars_keyed_by_name_witness :
  _merge_type_var_dicts
    (_merge_type_var_dicts ∅ {[ "T" := {[ Demo.int_class ]} ]})
    {[ "T" := {[ Demo.str_class ]} ]}
  = {[ "T" := {[ Demo.int_class ]} ∪ {[ Demo.str_class ]} ]}.
Proof.
  destruct (infer_type_vars_keyed_by_name (E := Demo.engine)
              0 Demo.T1 Demo.T2 {[ Demo.int_class ]} {[ Demo.str_class ]}
              true {[ "T" := {[ Demo.int_class ]} ]}
              {[ "T" := {[ Demo.str_class ]} ]})
    as (_ & _ & _ & bound & bound' & Hb & Hb' & Hmerge);
    [discriminate | reflexivity | reflexivity | reflexivity | reflexivity
    | reflexivity | set_solver | set_solver |].
  change (py__name__ (Engine := Demo.engine) Demo.T1) with "T" in *.
  change (py__name__ (Engine := Demo.engine) Demo.T2) with "T" in *.
  rewrite lookup_singleton_eq in Hb, Hb'.
  by injection Hb as <-; injection Hb' as <-.
Defined.

(** C4, as the specification states it, fails: the two declarations [T1]
    and [T2] of a type variable spelled [T] are distinct, the call binds the
    first to [int] and the second to [str], and the dictionary of the
    resolution has one entry, under [T], that holds both classes. *)
Lemma type_var_bindings_not_kept_separate :
  Demo.T1 ≠ Demo.T2
  ∧ py__name__ (Engine := Demo.engine) Demo.T1
    = py__name__ (Engine := Demo.engine) Demo.T2
  ∧ exists d,
      infer_type_vars_for_execution (E := Demo.engine) Demo.g Demo.arguments
        (py__annotations__ (tree_node Demo.g)) = Ok d
      ∧ size d = 1
      ∧ d !! "T" = Some {[ Demo.int_class; Demo.str_class ]}
      ∧ ¬ kept_separate (E := Demo.engine) d Demo.T1 Demo.T2
            {[ Demo.int_class ]} {[ Demo.str_class ]}.
Proof.
  split; [discriminate|]. split; [reflexivity|].
  exists {[ "T" := {[ Demo.int_class; Demo.str_class ]} ]}.
  split; [vm_compute; reflexivity|].
  split; [reflexivity|]. split; [reflexivity|].
  intros [H1 _]. vm_compute in H1. discriminate H1.
Qed.



(** ** Type-variable discovery *)

Section discovery.
Context {E : Engine}.

Lemma unpack_subscriptlist_no_slice subscriptlist nodes :
  _unpack_subscriptlist subscriptlist = Ok nodes ->
  Forall (fun n => node_type n ≠ "subscript") nodes.
Proof.
  unfold _unpack_subscriptlist.
  destruct (decide (node_type subscriptlist = "subscriptlist")) as [_|_].
  - destruct (children subscriptlist) as [cs|e]; simpl; [|done].
    intros [= <-]. apply Forall_forall. intros n Hn.
    by apply list_elem_of_filter in Hn as [Hn _].
  - destruct (decide (node_type subscriptlist ≠ "subscript")) as [Hs|_];
      simpl; intros [= <-]; [|constructor].
    by repeat constructor.
Qed.

(** C9, as the code has it.  When type-variable discovery walks a
    subscripted annotation expression (an [atom_expr] or [power] node whose
    last child is a trailer that opens with a bracket), it visits the nodes
    that [_unpack_subscriptlist] yields for the subscript, in order, and
    nothing else.  A subscript-list is flattened into its elements (every
    other child, the commas between them left out); a slice-like [subscript]
    node is not yielded, neither as an element of the list nor when it is
    the whole subscript, and is not decomposed either: no node that is
    yielded is a slice, and a subscript that is one slice leaves the list of
    type variables found as it was. *)
Theorem discovery_skips_slices
  (depth : nat) (context : InferContext)
  (node trailer bracket subscriptlist : Node) (before rest : list Node)
  (found : list Value)
  (Hnode : node_type node ∈ ["atom_expr"; "power"])
  (Hchildren : children node = Ok (before ++ [trailer]))
  (Htrailer : trailer = BaseNode "trailer" (bracket :: subscriptlist :: rest))
  (Hbracket : node_eq_str bracket "[" = true) :
  check_node (S depth) context node found
  = (subscript_nodes ← _unpack_subscriptlist subscriptlist;
     for_each subscript_nodes (check_node depth context) found)
  ∧ (forall elements_,
        subscriptlist = BaseNode "subscriptlist" elements_ ->
        _unpack_subscriptlist subscriptlist
        = Ok (filter (fun n => node_type n ≠ "subscript")
                     (every_other elements_)))
  ∧ (node_type subscriptlist ≠ "subscriptlist" ->
     node_type subscriptlist ≠ "subscript" ->
     _unpack_subscriptlist subscriptlist = Ok [subscriptlist])
  ∧ (node_type subscriptlist = "subscript" ->
     _unpack_subscriptlist subscriptlist = Ok []
     ∧ check_node (S depth) context node found = Ok found)
  ∧ (forall nodes,
        _unpack_subscriptlist subscriptlist = Ok nodes ->
        Forall (fun n => node_type n ≠ "subscript") nodes).
Proof.
  assert (Hcheck : check_node (S depth) context node found
                   = (subscript_nodes ← _unpack_subscriptlist subscriptlist;
                      for_each subscript_nodes (check_node depth context)
                        found)).
  { cbn [check_node]. rewrite (bool_decide_eq_true_2 _ Hnode), Hchildren.
    cbn [mbind result_bind]. unfold getitem_last. rewrite last_snoc.
    subst trailer. cbn [node_type children mbind result_bind getitem lookup
                        list_lookup].
    destruct (decide ("trailer" = "trailer")); [|done].
    by rewrite Hbracket. }
  assert (Hslice : node_type subscriptlist = "subscript" ->
                   _unpack_subscriptlist subscriptlist = Ok []).
  { intros Hs. unfold _unpack_subscriptlist. rewrite Hs.
    destruct (decide ("subscript" = "subscriptlist")); [done|].
    by destruct (decide ("subscript" ≠ "subscript")). }
  split; [exact Hcheck|]. split; [|split; [|split]].
  - intros elements_ ->. unfold _unpack_subscriptlist. simpl.
    by destruct (decide ("subscriptlist" = "subscriptlist")).
  - intros Hl Hs. unfold _unpack_subscriptlist.
    destruct (decide (node_type subscriptlist = "subscriptlist")); [done|].
    by destruct (decide (node_type subscriptlist ≠ "subscript")).
  - intros Hs. split; [by apply Hslice|].
    by rewrite Hcheck, (Hslice Hs).
  - apply unpack_subscriptlist_no_slice.
Qed.

End discovery.

Lemma discovery_skips_slices_witness :
  check_node (E := Demo.engine) 2 Demo.context Demo.Foo_slice_T1 []
  = Ok [Demo.T1].
Proof.
  rewrite (proj1 (discovery_skips_slices (E := Demo.engine)
                    1 Demo.context Demo.Foo_slice_T1
                    (BaseNode "trailer"
                       [operator "["; Demo.subscriptlist_slice_T1;
                        operator "]"])
                    (operator "[") Demo.subscriptlist_slice_T1
                    [name "Foo"] [operator "]"] []
                    ltac:(vm_compute; set_solver) eq_refl eq_refl eq_refl)).
  vm_compute. reflexivity.
Defined.

(** C9, as the specification states it, fails: in [Foo[T2:T2, T1]] the
    subscript-list has the slice [T2:T2] and the name [T1] as elements; the
    slice is not yielded as an element, only [T1] is, and the type variable
    [T2] that occurs in the slice only is not discovered. *)
Lemma slice_is_not_yielded :
  _unpack_subscriptlist Demo.subscriptlist_slice_T1
  = Ok [Leaf "name" " " "T1"]
  ∧ spec_unpack_subscriptlist Demo.subscriptlist_slice_T1
    = Ok [Demo.slice_T2; Leaf "name" " " "T1"]
  ∧ _unpack_subscriptlist Demo.subscriptlist_slice_T1
    ≠ spec_unpack_subscriptlist Demo.subscriptlist_slice_T1
  ∧ _unpack_subscriptlist Demo.slice_T2 = Ok []
  ∧ find_unknown_type_vars (E := Demo.engine) Demo.context Demo.Foo_slice_T1
    = Ok [Demo.T1].
Proof.
  split; [reflexivity|]. split; [reflexivity|].
  split; [discriminate|]. split; [reflexivity|].
  vm_compute. reflexivity.
Qed.

(** ** Parameters *)

Section parameters.
Context {E : Engine}.




End parameters.


(** ** Comment annotations and syntax failures *)

Section comments.
Context {E : Engine}.

(** C7.  A syntax failure is recovered where it happens.  When the parser
    rejects the text of a forward reference, [_get_forward_reference_node]
    logs one warning and returns [None], [_infer_annotation_string] returns
    the empty value set, and [infer_annotation] on a string literal of that
    text returns what it had inferred; when the parser rejects the text of a
    comment declaration, [_split_comment_param_declaration] logs one warning
    and returns the empty list.  None of them raises.  The unbalanced
    comment [# type: (int, -> str] matches neither the pattern for
    parameters nor the pattern for the return type, so [_infer_param],
    [infer_param] and [infer_return_types] return the empty value set for it
    without raising. *)
Theorem syntax_failures_recovered
  (context : InferContext) (string decl_text : string) (index : option nat)
  (function : Function) (param : Param) (arguments : CallArguments)
  (ignore_stars : bool)
  (Hforward : grammar_parse string = Raise ParserSyntaxError)
  (Hdecl : parse decl_text = Raise ParserSyntaxError)
  (Hparam : param_annotation param = None)
  (Hparam_comment : param_comment param = Some "# type: (int, -> str")
  (Hreturn : py__annotations__ (tree_node function) !! "return" = None)
  (Hcomment : funcdef_comment (tree_node function)
              = Some "# type: (int, -> str") :
  _get_forward_reference_node context string
  = Logged [AnnotationNotParsed string] (Ok None)
  ∧ _infer_annotation_string context string index
    = Logged [AnnotationNotParsed string] (Ok NO_VALUES)
  ∧ (forall annotation literal,
        infer_node context annotation = {[ literal ]} ->
        is_string literal = true ->
        get_safe_value literal = string ->
        infer_annotation context annotation
        = Logged [AnnotationNotParsed string] (Ok {[ literal ]}))
  ∧ _split_comment_param_declaration decl_text
    = Logged [CommentNotValidPython decl_text] (Ok [])
  ∧ _infer_param function param = Logged [] (Ok NO_VALUES)
  ∧ infer_param function param ignore_stars = Logged [] (Ok NO_VALUES)
  ∧ infer_return_types function arguments = Logged [] (Ok NO_VALUES).
Proof.
  assert (Hnode : _get_forward_reference_node context string
                  = Logged [AnnotationNotParsed string] (Ok None))
    by (unfold _get_forward_reference_node; by rewrite Hforward).
  assert (Hinfer : _infer_param function param = Logged [] (Ok NO_VALUES))
    by (unfold _infer_param; by rewrite Hparam, Hparam_comment).
  split; [exact Hnode|]. split; [|split; [|split; [|split; [|split]]]].
  - unfold _infer_annotation_string. by rewrite Hnode.
  - intros annotation literal Hinferred Hstring Hvalue.
    unfold infer_annotation. rewrite Hinferred, size_singleton.
    destruct (decide (1 ≠ 1)); [done|].
    rewrite elements_singleton. cbn [getitem lookup list_lookup lift].
    unfold mbind at 1, logged_bind. cbn [outcome log lift].
    by rewrite Hstring, Hvalue, Hnode.
  - unfold _split_comment_param_declaration. by rewrite Hdecl.
  - exact Hinfer.
  - unfold infer_param. rewrite Hinfer.
    unfold mbind, logged_bind. cbn [outcome log].
    destruct ignore_stars; [done|].
    unfold NO_VALUES. rewrite elements_empty.
    by repeat case_decide.
  - unfold infer_return_types. by rewrite Hreturn, Hcomment.
Qed.

(** C8.  [_split_comment_param_declaration] looks at the first child of the
    module that the parser returns for the declaration text.  When that
    node is a name or a subscripted or attribute expression ([name],
    [atom_expr], [power]) the result is the one fragment that is the code of
    the node, stripped; so when the node spans the text, the text itself.
    Otherwise the result is the stripped code of exactly those direct
    children of the node that are of these three types, in order; what is
    inside a child, a comma between brackets included, does not split it.
    A node without children gives no fragment.  On the trees that parso
    returns for them, [foo, Bar[baz, biz]] gives [foo] and [Bar[baz, biz]],
    and [x] gives [x]. *)
Theorem split_comment_param_declaration_fragments
  (decl_text : string) (module_ node : Node) (rest : list Node)
  (Hparse : parse decl_text = Ok module_)
  (Hchildren : children module_ = Ok (node :: rest)) :
  (is_name_like node = true ->
   _split_comment_param_declaration decl_text
   = Logged [] (Ok [strip (get_code node)]))
  ∧ (is_name_like node = true -> get_code node = decl_text ->
     strip decl_text = decl_text ->
     _split_comment_param_declaration decl_text = Logged [] (Ok [decl_text]))
  ∧ (forall type_ direct_children,
        is_name_like node = false ->
        node = BaseNode type_ direct_children ->
        _split_comment_param_declaration decl_text
        = Logged [] (Ok (map (fun child => strip (get_code child))
                             (filter (fun child => is_name_like child = true)
                                     direct_children))))
  ∧ (forall type_ prefix value,
        is_name_like node = false ->
        node = Leaf type_ prefix value ->
        _split_comment_param_declaration decl_text = Logged [] (Ok []))
  ∧ (decl_text = "foo, Bar[baz, biz]" -> module_ = parso_module_foo_bar ->
     _split_comment_param_declaration decl_text
     = Logged [] (Ok ["foo"; "Bar[baz, biz]"]))
  ∧ (decl_text = "x" -> module_ = parso_module_x ->
     _split_comment_param_declaration decl_text = Logged [] (Ok ["x"])).
Proof.
  assert (Hfirst : (m ← parse decl_text; cs ← children m; getitem cs 0)
                   = Ok node).
  { rewrite Hparse. cbn [mbind result_bind]. by rewrite Hchildren. }
  assert (Hname : is_name_like node = true ->
                  _split_comment_param_declaration decl_text
                  = Logged [] (Ok [strip (get_code node)])).
  { intros Hn. unfold _split_comment_param_declaration.
    by rewrite Hfirst, Hn. }
  assert (Hother : forall type_ direct_children,
             is_name_like node = false ->
             node = BaseNode type_ direct_children ->
             _split_comment_param_declaration decl_text
             = Logged [] (Ok (map (fun child => strip (get_code child))
                                  (filter (fun child => is_name_like child = true)
                                          direct_children)))).
  { intros type_ direct_children Hn Hnode.
    unfold _split_comment_param_declaration.
    rewrite Hfirst, Hn. by subst node. }
  split; [exact Hname|]. split; [|split; [exact Hother|split; [|split]]].
  - intros Hn Hcode Hstrip. by rewrite (Hname Hn), Hcode, Hstrip.
  - intros type_ prefix value Hn Hnode.
    unfold _split_comment_param_declaration.
    rewrite Hfirst, Hn. by subst node.
  - intros -> ->. injection Hchildren as <- <-.
    by rewrite (Hother _ _ eq_refl eq_refl).
  - intros -> ->. injection Hchildren as <- <-.
    by rewrite (Hname eq_refl).
Qed.

End comments.

Lemma syntax_failures_recovered_witness :
  _infer_annotation_string (E := Demo.engine) Demo.context "(int, -> str" None
  = Logged [AnnotationNotParsed "(int, -> str"] (Ok ∅)
  ∧ _split_comment_param_declaration (E := Demo.engine) "int, -> str"
    = Logged [CommentNotValidPython "int, -> str"] (Ok [])
  ∧ infer_param (E := Demo.engine) Demo.unbalanced_function
      Demo.unbalanced_param false
    = Logged [] (Ok ∅)
  ∧ infer_return_types (E := Demo.engine) Demo.unbalanced_function
      Demo.arguments
    = Logged [] (Ok ∅).
Proof.
  destruct (syntax_failures_recovered (E := Demo.engine)
              Demo.context "(int, -> str" "int, -> str" None
              Demo.unbalanced_function Demo.unbalanced_param Demo.arguments
              false eq_refl eq_refl eq_refl eq_refl eq_refl eq_refl)
    as (_ & Hstring & _ & Hsplit & _ & Hparam & Hreturn).
  exact (conj Hstring (conj Hsplit (conj Hparam Hreturn))).
Defined.

Lemma split_comment_param_declaration_fragments_witness :
  _split_comment_param_declaration (E := Demo.engine) "foo, Bar[baz, biz]"
  = Logged [] (Ok ["foo"; "Bar[baz, biz]"])
  ∧ _split_comment_param_declaration (E := Demo.engine) "x"
    = Logged [] (Ok ["x"]).
Proof.
  split.
  - refine (proj1 (proj2 (proj2 (proj2 (proj2
      (split_comment_param_declaration_fragments (E := Demo.engine)
         "foo, Bar[baz, biz]" parso_module_foo_bar _ _ eq_refl eq_refl)))))
      eq_refl eq_refl).
  - refine (proj2 (proj2 (proj2 (proj2 (proj2
      (split_comment_param_declaration_fragments (E := Demo.engine)
         "x" parso_module_x _ _ eq_refl eq_refl)))))
      eq_refl eq_refl).
Defined.

(** ** Annotation strings with an index *)

Section annotation_string.
Context {E : Engine}.

Lemma for_each_raises {A S} (l : list A) (body : A -> S -> result S) x :
  x ∈ l -> (forall s, raises (body x s)) ->
  forall s, raises (for_each l body s).
Proof.
  intros Hx Hraise. induction l as [|y l IH]; intros s.
  - by apply elem_of_nil in Hx.
  - simpl. apply elem_of_cons in Hx as [<-|Hx].
    + destruct (Hraise s) as [e ->]. by exists e.
    + destruct (body y s) as [s'|e]; simpl; [by apply IH|by exists e].
Qed.

(** The filter of [_infer_annotation_string] lets a tuple through that has
    exactly [index] elements, and the element at [index], which such a
    tuple does not have, is then asked of it. *)
Lemma annotation_string_index_equal_to_length
  (context : InferContext) (string : string) (index : nat)
  (node : Node) (value : Value) (e : exn) :
  grammar_parse string = Ok node ->
  value ∈ infer_node context (anchor context node) ->
  array_type value = Some "tuple" ->
  length (py__iter__ value) = index ->
  py__simple_getitem__ value index = Raise e ->
  raises (outcome (_infer_annotation_string context string (Some index))).
Proof.
  intros Hparse Hvalue Htuple Hlen Hget.
  unfold _infer_annotation_string, _get_forward_reference_node.
  rewrite Hparse. cbn.
  apply for_each_raises with (x := value).
  - apply elem_of_elements, elem_of_filter. split; [|done].
    split; [done|lia].
  - intros s. rewrite Hget. by exists e.
Qed.

End annotation_string.

(** C3, on the code.  The comment of [a, b, c = f()  # type: int, str]
    infers to one tuple of two elements; [c] is looked up with index 2.
    The filter keeps the tuple, because its length is not below the index,
    and asking the tuple for the element at 2 raises.  With index 1 the
    element is returned, and with index 3 the tuple is filtered out. *)
Theorem annotation_string_index_off_by_one :
  infer_node (Engine := Demo.engine) Demo.context Demo.int_str_node
  = {[ Demo.int_str_tuple ]}
  ∧ array_type (Engine := Demo.engine) Demo.int_str_tuple = Some "tuple"
  ∧ length (py__iter__ (Engine := Demo.engine) Demo.int_str_tuple) = 2
  ∧ _infer_annotation_string (E := Demo.engine) Demo.context "int, str"
      (Some 2)
    = Logged [] (Raise SimpleGetItemNotFound)
  ∧ _infer_annotation_string (E := Demo.engine) Demo.context "int, str"
      (Some 1)
    = Logged [] (Ok {[ Demo.str_class ]})
  ∧ _infer_annotation_string (E := Demo.engine) Demo.context "int, str"
      (Some 3)
    = Logged [] (Ok ∅).
Proof. repeat split; vm_compute; reflexivity. Qed.

(** ** Return types *)

Section return_types.
Context {E : Engine}.

Lemma logged_eta {A} (m : logged A) : Logged (log m) (outcome m) = m.
Proof. by destruct m. Qed.

Lemma logged_bind_lift_ok {A B} (a : A) (f : A -> logged B) :
  lift (Ok a) ≫= f = f a.
Proof. unfold mbind, logged_bind. simpl. apply logged_eta. Qed.

Lemma lookup_params_annotations (params : list Param) (dct : gmap string Node) k :
  Forall (fun p => param_name p ≠ k) params ->
  foldl (fun dct function_param =>
           match param_annotation function_param with
           | Some param_annotation =>
               <[param_name function_param := param_annotation]> dct
           | None => dct
           end) dct params !! k
  = dct !! k.
Proof.
  intros Hnames. revert dct.
  induction Hnames as [|p params Hp _ IH]; intros dct; simpl; [done|].
  rewrite IH. destruct (param_annotation p); [|done].
  by rewrite lookup_insert_ne.
Qed.

(** The entry [return] of [py__annotations__] is the return annotation of
    the function definition; no parameter is named [return]. *)
Lemma py__annotations___return (funcdef : FuncDef) :
  Forall (fun p => param_name p ≠ "return") (get_params funcdef) ->
  py__annotations__ funcdef !! "return" = funcdef_annotation funcdef.
Proof.
  intros Hnames. unfold py__annotations__.
  destruct (funcdef_annotation funcdef) as [annotation|].
  - apply lookup_insert_eq.
  - by rewrite lookup_params_annotations.
Qed.

(** C1, as the code has it.  For a function with a syntactic return
    annotation, [infer_return_types] takes the unification path exactly
    when type-variable discovery finds a type variable in the return
    annotation itself: when it finds none, the resolved value set of the
    return annotation is executed as it is, whatever the annotations of the
    parameters reference and whatever the call's arguments are; when it
    finds one, the dictionary built from the call's arguments is
    substituted into the value set before it is executed.  For a function
    that has its return annotation in a type comment only, the resolved
    annotation is always executed as it is. *)
Theorem infer_return_types_paths
  (function : Function) (arguments : CallArguments) :
  let context := get_default_param_context function in
  let all_annotations := py__annotations__ (tree_node function) in
  (forall annotation,
      all_annotations !! "return" = Some annotation ->
      (find_unknown_type_vars context annotation = Ok [] ->
       infer_return_types function arguments
       = direct_path context annotation)
      ∧ (references_type_vars context annotation ->
         infer_return_types function arguments
         = unification_path function arguments annotation))
  ∧ (forall comment group1,
        all_annotations !! "return" = None ->
        funcdef_comment (tree_node function) = Some comment ->
        re_match_group1 return_comment_re comment = Some group1 ->
        infer_return_types function arguments
        = (value_set ← _infer_annotation_string context (strip group1) None;
           mret (vs_execute_annotation value_set)))
  ∧ (forall arguments',
        all_annotations !! "return" = None
        ∨ (exists annotation,
              all_annotations !! "return" = Some annotation
              ∧ find_unknown_type_vars context annotation = Ok []) ->
        infer_return_types function arguments
        = infer_return_types function arguments').
Proof.
  intros context all_annotations.
  assert (Hdirect : forall args annotation,
             all_annotations !! "return" = Some annotation ->
             find_unknown_type_vars context annotation = Ok [] ->
             infer_return_types function args
             = direct_path context annotation).
  { intros args annotation Hreturn Hnone. unfold infer_return_types.
    fold all_annotations. rewrite Hreturn. fold context.
    by rewrite Hnone, logged_bind_lift_ok. }
  split; [|split].
  - intros annotation Hreturn. split; [by apply Hdirect|].
    intros (type_var & rest & Hsome). unfold infer_return_types.
    fold all_annotations. rewrite Hreturn. fold context.
    by rewrite Hsome, logged_bind_lift_ok.
  - intros comment group1 Hreturn Hcomment Hmatch.
    unfold infer_return_types. fold all_annotations.
    by rewrite Hreturn, Hcomment, Hmatch.
  - intros arguments' [Hreturn|(annotation & Hreturn & Hnone)].
    + unfold infer_return_types. fold all_annotations. by rewrite Hreturn.
    + by rewrite !(Hdirect _ annotation).
Qed.

End return_types.

Lemma infer_return_types_paths_witness :
  infer_return_types (E := Demo.engine) Demo.f_identity Demo.arguments
  = Logged [] (Ok {[ Demo.int_instance ]})
  ∧ infer_return_types (E := Demo.engine) Demo.f_forward Demo.arguments
    = Logged [] (Ok ∅).
Proof.
  split.
  - rewrite (proj2 (proj1 (infer_return_types_paths (E := Demo.engine)
                             Demo.f_identity Demo.arguments)
                      (name "T1") eq_refl)).
    + vm_compute. reflexivity.
    + exists Demo.T1, []. vm_compute. reflexivity.
  - rewrite (proj1 (proj1 (infer_return_types_paths (E := Demo.engine)
                             Demo.f_forward Demo.arguments)
                      Demo.T1_literal_node eq_refl)).
    + vm_compute. reflexivity.
    + vm_compute. reflexivity.
Defined.

(** C1, as the specification states it, fails: in
    [def f(x: T1) -> 'T1': ...] the annotation of the parameter [x]
    references the type variable [T1], which discovery finds there;
    discovery finds no type variable in the return annotation, a string
    literal, so the code executes the resolved return annotation as it is
    and returns the empty set, where the unification path binds [T] to
    [int] from the argument and returns an instance of [int]. *)
Lemma return_path_ignores_parameter_annotations :
  param_annotation <$> get_params (tree_node Demo.f_forward)
  = [Some (name "T1")]
  ∧ references_type_vars (E := Demo.engine) Demo.context (name "T1")
  ∧ find_unknown_type_vars (E := Demo.engine) Demo.context
      Demo.T1_literal_node = Ok []
  ∧ infer_return_types (E := Demo.engine) Demo.f_forward Demo.arguments
    = direct_path (E := Demo.engine) Demo.context Demo.T1_literal_node
  ∧ infer_return_types (E := Demo.engine) Demo.f_forward Demo.arguments
    = Logged [] (Ok ∅)
  ∧ unification_path (E := Demo.engine) Demo.f_forward Demo.arguments
      Demo.T1_literal_node
    = Logged [] (Ok {[ Demo.int_instance ]})
  ∧ infer_return_types (E := Demo.engine) Demo.f_forward Demo.arguments
    ≠ unification_path (E := Demo.engine) Demo.f_forward Demo.arguments
        Demo.T1_literal_node.
Proof.
  split; [reflexivity|]. split.
  { exists Demo.T1, []. vm_compute. reflexivity. }
  split; [vm_compute; reflexivity|].
  split; [vm_compute; reflexivity|].
  split; [vm_compute; reflexivity|].
  split; [vm_compute; reflexivity|].
  vm_compute. discriminate.
Qed.

(** * Further properties of the module *)

(** ** Loops *)

Lemma for_each_invariant {A S} (P : S -> Prop) (l : list A)
  (body : A -> S -> result S) s r :
  (forall x s s', P s -> body x s = Ok s' -> P s') ->
  P s -> for_each l body s = Ok r -> P r.
Proof.
  intros Hbody. revert s.
  induction l as [|x l IH]; intros s Hs; simpl.
  - by intros [= <-].
  - destruct (body x s) as [s'|e] eqn:Hx; simpl; [|done].
    apply IH. by eapply Hbody.
Qed.

Lemma for_each_extends {A S} (l : list A) (body body' : A -> S -> result S)
  s r :
  (forall x s r, body x s = Ok r -> body' x s = Ok r) ->
  for_each l body s = Ok r -> for_each l body' s = Ok r.
Proof.
  intros Hbody. revert s.
  induction l as [|x l IH]; intros s; simpl; [done|].
  destruct (body x s) as [s'|e] eqn:Hx; simpl; [|done].
  rewrite (Hbody _ _ _ Hx). simpl. apply IH.
Qed.

(** ** More on merging *)

Lemma merge_type_var_dicts_no_empty (base new : TypeVarDict) :
  no_empty_bindings base ->
  no_empty_bindings (_merge_type_var_dicts base new).
Proof.
  intros Hbase k values. rewrite lookup_merge_type_var_dicts.
  unfold merged_binding. destruct (new !! k) as [v|]; [|apply Hbase].
  destruct (decide (v ≠ ∅)) as [Hv|_]; [|apply Hbase].
  intros [= <-]. set_solver.
Qed.

(** X1.  Merging never loses what the accumulator holds: a variable that is
    bound stays bound, to a value set that contains the old one, and the
    variables of the result are those of the accumulator and those that the
    new dictionary binds to a non-empty set.  Merging the empty dictionary
    changes nothing, and so does merging a dictionary a second time. *)
Theorem merge_type_var_dicts_grows (base new : TypeVarDict) :
  _merge_type_var_dicts base ∅ = base
  ∧ _merge_type_var_dicts (_merge_type_var_dicts base new) new
    = _merge_type_var_dicts base new
  ∧ (forall k old,
        base !! k = Some old ->
        exists values,
          _merge_type_var_dicts base new !! k = Some values ∧ old ⊆ values)
  ∧ (forall k,
        k ∈ dom (_merge_type_var_dicts base new)
        <-> k ∈ dom base
            ∨ exists values, new !! k = Some values ∧ values ≠ ∅).
Proof.
  split; [|split; [|split]].
  - apply map_eq; intros k.
    by rewrite lookup_merge_type_var_dicts, lookup_empty.
  - apply map_eq; intros k. rewrite !lookup_merge_type_var_dicts.
    unfold merged_binding. destruct (new !! k) as [v|]; [|done].
    destruct (decide (v ≠ ∅)); [|done].
    destruct (base !! k); simpl; f_equal; set_solver.
  - intros k old Hold. rewrite lookup_merge_type_var_dicts, Hold.
    unfold merged_binding. destruct (new !! k) as [v|]; [|by exists old].
    destruct (decide (v ≠ ∅)); [|by exists old].
    exists (old ∪ v). split; [done|set_solver].
  - intros k. rewrite !elem_of_dom, lookup_merge_type_var_dicts.
    unfold merged_binding. destruct (new !! k) as [v|].
    + destruct (decide (v ≠ ∅)) as [Hv|Hv].
      * split; [|by eauto]. intros _. right. by exists v.
      * split; [by left|]. intros [?|(v' & [= <-] & ?)]; done.
    + split; [by left|]. by intros [?|(v' & [=] & ?)].
Qed.

(** ** Bindings are never empty *)

Section no_empty.
Context {E : Engine}.

Lemma no_empty_bindings_empty : no_empty_bindings ∅.
Proof. intros k values. by rewrite lookup_empty. Qed.

Lemma merge_nested_no_empty rec nested d r :
  no_empty_bindings d -> merge_nested rec nested d = Ok r ->
  no_empty_bindings r.
Proof.
  intros Hd. unfold merge_nested. apply for_each_invariant; [|done].
  intros v s s' Hs. destruct (rec v) as [new|e]; simpl; [|done].
  intros [= <-]. by apply merge_type_var_dicts_no_empty.
Qed.

Lemma merge_zipped_no_empty rec annotation_generics actual_generics d r :
  no_empty_bindings d ->
  merge_zipped rec annotation_generics actual_generics d = Ok r ->
  no_empty_bindings r.
Proof.
  intros Hd. unfold merge_zipped. apply for_each_invariant; [|done].
  intros pair s s' Hs. by apply merge_nested_no_empty.
Qed.

Lemma walk_mro_no_empty rec annotation_value mro d r :
  no_empty_bindings d -> walk_mro rec annotation_value mro d = Ok r ->
  no_empty_bindings r.
Proof.
  intros Hd. rewrite walk_mro_find.
  destruct (find_generic_ancestor annotation_value mro).
  - by apply merge_zipped_no_empty.
  - by intros [= <-].
Qed.

Lemma infer_type_vars_no_empty depth annotation_value value_set
  is_class_value d :
  isinstance annotation_value TypeVar = false ->
  _infer_type_vars depth annotation_value value_set is_class_value = Ok d ->
  no_empty_bindings d.
Proof.
  intros Hvar. destruct depth as [|depth]; [done|].
  cbn [_infer_type_vars]. rewrite Hvar.
  pose proof no_empty_bindings_empty as Hempty.
  assert (Hok : forall r : TypeVarDict,
             Ok (∅ : TypeVarDict) = Ok r -> no_empty_bindings r)
    by (by intros r [= <-]).
  destruct (isinstance annotation_value TypingClassValueWithIndex).
  - destruct (decide (py__name__ annotation_value = "Type")).
    { destruct (get_generics annotation_value) as [|given0 rest];
        [apply Hok|].
      destruct is_class_value.
      - apply for_each_invariant; [|done]. intros v s s' Hs.
        destruct (decide (py__name__ annotation_value = py__name__ v));
          [by apply merge_zipped_no_empty|by intros [= <-]].
      - by apply merge_nested_no_empty. }
    destruct (decide (py__name__ annotation_value = "Callable")).
    { destruct (get_generics annotation_value) as [|g0 [|g1 [|g2 rest]]];
        try apply Hok.
      by apply merge_nested_no_empty. }
    destruct (decide (py__name__ annotation_value = "Tuple")); [|apply Hok].
    apply for_each_invariant; [|done]. intros v s s' Hs.
    destruct (negb (isinstance _ DefineGenericBase)); [by intros [= <-]|].
    destruct (elements (execute_annotation annotation_value))
      as [|tuple_annotation [|? ?]]; [done| |done].
    destruct (_is_homogenous tuple_annotation).
    + destruct (getitem (get_generics annotation_value) 0); simpl; [|done].
      by apply merge_nested_no_empty.
    + by apply merge_zipped_no_empty.
  - destruct (isinstance annotation_value GenericClass); [|apply Hok].
    destruct (bool_decide (py__name__ annotation_value = "Iterable")
              && negb is_class_value).
    + destruct (get_generics annotation_value) as [|given0 rest];
        [apply Hok|]. by apply merge_nested_no_empty.
    + apply for_each_invariant; [|done]. intros v s s' Hs.
      destruct (negb (has_is_instance v)); [by intros [= <-]|].
      by apply walk_mro_no_empty.
Qed.

(** X2.  The dictionaries that unification accumulates never bind a
    variable to the empty value set: merging keeps that, so it holds of
    what [_infer_type_vars] returns for every annotation that is not a bare
    type variable, and of what [infer_type_vars_for_execution] and
    [infer_type_vars_for_callable] return.  A bare type variable unified
    with the empty value set is the one place where an empty binding is
    made, and merging it into an accumulator leaves the accumulator as it
    was. *)
Theorem bindings_never_empty
  (depth : nat) (annotation_value : Value) (value_set : ValueSet)
  (is_class_value : bool) (function : Function) (arguments : CallArguments)
  (annotation_dict : gmap string Node) (lazy_params : list ValueSet)
  (base new : TypeVarDict) :
  (no_empty_bindings base ->
   no_empty_bindings (_merge_type_var_dicts base new))
  ∧ (forall d,
        isinstance annotation_value TypeVar = false ->
        _infer_type_vars depth annotation_value value_set is_class_value
        = Ok d ->
        no_empty_bindings d)
  ∧ (forall d,
        infer_type_vars_for_execution function arguments annotation_dict
        = Ok d ->
        no_empty_bindings d)
  ∧ (forall d,
        infer_type_vars_for_callable arguments lazy_params = Ok d ->
        no_empty_bindings d)
  ∧ (isinstance annotation_value TypeVar = true ->
     _infer_type_vars (S depth) annotation_value ∅ true
     = Ok {[ py__name__ annotation_value := ∅ ]}
     ∧ _merge_type_var_dicts base {[ py__name__ annotation_value := ∅ ]}
       = base).
Proof.
  split; [apply merge_type_var_dicts_no_empty|].
  split; [intros d; apply infer_type_vars_no_empty|].
  split; [|split].
  - intros d. unfold infer_type_vars_for_execution.
    apply for_each_invariant; [|apply no_empty_bindings_empty].
    intros p s s' Hs.
    destruct (annotation_dict !! string_name p); [|by intros [= <-]].
    destruct (find_unknown_type_vars _ _) as [[|tv tvs]|e]; simpl;
      [by intros [= <-]| |done].
    by apply merge_nested_no_empty.
  - intros d. unfold infer_type_vars_for_callable.
    apply for_each_invariant; [|apply no_empty_bindings_empty].
    intros pair s s' Hs. by apply merge_nested_no_empty.
  - intros Hvar. split; [simpl; by rewrite Hvar|].
    apply map_eq; intros k. rewrite lookup_merge_type_var_dicts.
    unfold merged_binding.
    destruct (decide (k = py__name__ annotation_value)) as [->|Hk].
    + rewrite lookup_singleton_eq. by destruct (decide (∅ ≠ ∅)).
    + by rewrite lookup_singleton_ne.
Qed.

End no_empty.

(** ** The recursion limit *)

Section depth.
Context {E : Engine}.

Lemma merge_nested_extends rec rec' nested d r :
  extends rec rec' ->
  merge_nested rec nested d = Ok r -> merge_nested rec' nested d = Ok r.
Proof.
  intros Hrec. unfold merge_nested. apply for_each_extends.
  intros v s s'. destruct (rec v) as [new|e] eqn:Hv; simpl; [|done].
  by rewrite (Hrec _ _ Hv).
Qed.

Lemma merge_zipped_extends (rec rec' : Value -> ValueSet -> result TypeVarDict)
  annotation_generics actual_generics d r :
  (forall actual, extends (fun v => rec v actual) (fun v => rec' v actual)) ->
  merge_zipped rec annotation_generics actual_generics d = Ok r ->
  merge_zipped rec' annotation_generics actual_generics d = Ok r.
Proof.
  intros Hrec. unfold merge_zipped. apply for_each_extends.
  intros pair s s'. apply merge_nested_extends, Hrec.
Qed.

Lemma walk_mro_extends (rec rec' : Value -> ValueSet -> result TypeVarDict)
  annotation_value mro d r :
  (forall actual, extends (fun v => rec v actual) (fun v => rec' v actual)) ->
  walk_mro rec annotation_value mro d = Ok r ->
  walk_mro rec' annotation_value mro d = Ok r.
Proof.
  intros Hrec. rewrite !walk_mro_find.
  destruct (find_generic_ancestor annotation_value mro); [|done].
  by apply merge_zipped_extends.
Qed.

Lemma check_node_depth depth depth' context node found r :
  depth ≤ depth' ->
  check_node depth context node found = Ok r ->
  check_node depth' context node found = Ok r.
Proof.
  revert depth' node found r.
  induction depth as [|depth IH]; intros depth' node found r Hle; [done|].
  destruct depth' as [|depth']; [lia|].
  cbn [check_node].
  destruct (bool_decide (node_type node ∈ ["atom_expr"; "power"])); [|done].
  destruct (children node) as [cs|?]; simpl; [|done].
  destruct (getitem_last cs) as [trailer|?]; simpl; [|done].
  destruct (decide (node_type trailer = "trailer")); [|done].
  destruct (children trailer) as [tcs|?]; simpl; [|done].
  destruct (getitem tcs 0) as [first|?]; simpl; [|done].
  destruct (node_eq_str first "["); [|done].
  destruct (getitem tcs 1) as [sub|?]; simpl; [|done].
  destruct (_unpack_subscriptlist sub) as [nodes|?]; simpl; [|done].
  apply for_each_extends. intros n s s'. apply IH. lia.
Qed.

Lemma infer_type_vars_depth depth depth' annotation_value value_set
  is_class_value d :
  depth ≤ depth' ->
  _infer_type_vars depth annotation_value value_set is_class_value = Ok d ->
  _infer_type_vars depth' annotation_value value_set is_class_value = Ok d.
Proof.
  revert depth' annotation_value value_set is_class_value d.
  induction depth as [|depth IH];
    intros depth' annotation_value value_set is_class_value d Hle; [done|].
  destruct depth' as [|depth']; [lia|].
  assert (Hrec : forall flag actual,
             extends (fun v => _infer_type_vars depth v actual flag)
                     (fun v => _infer_type_vars depth' v actual flag)).
  { intros flag actual v r. apply IH. lia. }
  cbn [_infer_type_vars].
  destruct (isinstance annotation_value TypeVar); [done|].
  destruct (isinstance annotation_value TypingClassValueWithIndex).
  - destruct (decide (py__name__ annotation_value = "Type")).
    { destruct (get_generics annotation_value) as [|given0 rest]; [done|].
      destruct is_class_value.
      - apply for_each_extends. intros v s s'.
        destruct (decide (py__name__ annotation_value = py__name__ v));
          [|done].
        apply merge_zipped_extends, Hrec.
      - apply merge_nested_extends, Hrec. }
    destruct (decide (py__name__ annotation_value = "Callable")).
    { destruct (get_generics annotation_value) as [|g0 [|g1 [|g2 rest]]];
        try done.
      apply merge_nested_extends, Hrec. }
    destruct (decide (py__name__ annotation_value = "Tuple")); [|done].
    apply for_each_extends. intros v s s'.
    destruct (negb (isinstance _ DefineGenericBase)); [done|].
    destruct (elements (execute_annotation annotation_value))
      as [|tuple_annotation [|? ?]]; [done| |done].
    destruct (_is_homogenous tuple_annotation).
    + destruct (getitem (get_generics annotation_value) 0); simpl; [|done].
      apply merge_nested_extends, Hrec.
    + apply merge_zipped_extends, Hrec.
  - destruct (isinstance annotation_value GenericClass); [|done].
    destruct (bool_decide (py__name__ annotation_value = "Iterable")
              && negb is_class_value).
    + destruct (get_generics annotation_value) as [|given0 rest]; [done|].
      apply merge_nested_extends, Hrec.
    + apply for_each_extends. intros v s s'.
      destruct (negb (has_is_instance v)); [done|].
      apply walk_mro_extends, Hrec.
Qed.

(** X3.  A result does not depend on the recursion limit: when
    type-variable discovery or unification returns with some number of
    nested calls allowed, it returns the same with any larger number.  Only
    [RecursionError] goes away when the limit is raised. *)
Theorem results_independent_of_recursion_limit
  (depth depth' : nat) (context : InferContext) (node : Node)
  (found : list Value) (annotation_value : Value) (value_set : ValueSet)
  (is_class_value : bool) (Hle : depth ≤ depth') :
  (forall r,
      check_node depth context node found = Ok r ->
      check_node depth' context node found = Ok r)
  ∧ (forall d,
        _infer_type_vars depth annotation_value value_set is_class_value
        = Ok d ->
        _infer_type_vars depth' annotation_value value_set is_class_value
        = Ok d).
Proof.
  split.
  - intros r. by apply check_node_depth.
  - intros d. by apply infer_type_vars_depth.
Qed.

End depth.

Lemma results_independent_of_recursion_limit_witness :
  check_node (E := Demo.engine) 1000 Demo.context Demo.Foo_slice_T1 []
  = Ok [Demo.T1]
  ∧ _infer_type_vars (E := Demo.engine) 1000 Demo.Foo_T1
      {[ Demo.foo_instance ]} false
    = Ok {[ "T" := {[ Demo.int_class ]} ]}.
Proof.
  destruct (results_independent_of_recursion_limit (E := Demo.engine)
              2 1000 Demo.context Demo.Foo_slice_T1 [] Demo.Foo_T1
              {[ Demo.foo_instance ]} false ltac:(lia))
    as [Hcheck Hinfer].
  split; [apply Hcheck|apply Hinfer]; vm_compute; reflexivity.
Defined.

(** ** What discovery finds *)

Section found.
Context {E : Engine}.

Lemma filter_type_vars_closed_form (value_set : ValueSet) (found : list Value) :
  _filter_type_vars value_set found
  = found ++ filter (fun type_var => isinstance type_var TypeVar = true
                                     ∧ type_var ∉ found)
                    (elements value_set).
Proof.
  unfold _filter_type_vars.
  assert (Hgeneral : forall l acc,
             foldl (fun new_found type_var =>
                      if isinstance type_var TypeVar
                         && bool_decide (type_var ∉ found)
                      then new_found ++ [type_var] else new_found) acc l
             = acc ++ filter (fun type_var =>
                                isinstance type_var TypeVar = true
                                ∧ type_var ∉ found) l).
  { induction l as [|v l IH]; intros acc; simpl; [by rewrite app_nil_r|].
    rewrite IH, filter_cons.
    destruct (isinstance v TypeVar) eqn:Hv; simpl.
    - destruct (decide (v ∉ found)) as [Hin|Hin].
      + rewrite (bool_decide_eq_true_2 _ Hin).
        destruct (decide (true = true ∧ v ∉ found)) as [_|[]]; [|done].
        by rewrite <- app_assoc.
      + rewrite (bool_decide_eq_false_2 _ Hin).
        by destruct (decide (true = true ∧ v ∉ found)) as [[_ ?]|_].
    - by destruct (decide (false = true ∧ v ∉ found)) as [[? _]|_]. }
  apply Hgeneral.
Qed.

Lemma grows_by_type_vars_refl found : grows_by_type_vars found found.
Proof. split; [done|]. split; [done|]. by left. Qed.

Lemma grows_by_type_vars_trans found found' found'' :
  grows_by_type_vars found found' -> grows_by_type_vars found' found'' ->
  grows_by_type_vars found found''.
Proof.
  intros (Hp & Hn & Hv) (Hp' & Hn' & Hv'). split; [by etrans|].
  split; [by auto|]. intros v Hin. destruct (Hv' v Hin); auto.
Qed.

Lemma filter_type_vars_grows value_set found :
  grows_by_type_vars found (_filter_type_vars value_set found).
Proof.
  rewrite filter_type_vars_closed_form. split; [by apply prefix_app_r|].
  split.
  - intros Hfound. apply NoDup_app. split; [done|]. split.
    + intros v Hin [[_ Hout] _]%list_elem_of_filter. done.
    + apply NoDup_filter, NoDup_elements.
  - intros v [Hin|[[Hv _] _]%list_elem_of_filter]%elem_of_app; auto.
Qed.

Lemma check_node_grows depth context node found found' :
  check_node depth context node found = Ok found' ->
  grows_by_type_vars found found'.
Proof.
  revert node found found'.
  induction depth as [|depth IH]; intros node found found'; [done|].
  cbn [check_node].
  assert (Hsame : Ok found = Ok found' -> grows_by_type_vars found found')
    by (intros [= <-]; apply grows_by_type_vars_refl).
  destruct (bool_decide (node_type node ∈ ["atom_expr"; "power"])).
  - destruct (children node) as [cs|?]; simpl; [|done].
    destruct (getitem_last cs) as [trailer|?]; simpl; [|done].
    destruct (decide (node_type trailer = "trailer")); [|done].
    destruct (children trailer) as [tcs|?]; simpl; [|done].
    destruct (getitem tcs 0) as [first|?]; simpl; [|done].
    destruct (node_eq_str first "["); [|done].
    destruct (getitem tcs 1) as [sub|?]; simpl; [|done].
    destruct (_unpack_subscriptlist sub) as [nodes|?]; simpl; [|done].
    apply (for_each_invariant (grows_by_type_vars found));
      [|apply grows_by_type_vars_refl].
    intros n s s' Hs Hn. eapply grows_by_type_vars_trans; [done|].
    by eapply IH.
  - intros [= <-]. apply filter_type_vars_grows.
Qed.

(** X4.  Type-variable discovery returns its findings in the order in
    which they were first seen and never twice.  [_filter_type_vars]
    appends to the list it is given exactly the type variables of the value
    set that the list does not hold yet; [check_node] only ever appends
    type variables to its list, keeps what the list held at the front, and
    keeps a list without duplicates free of duplicates; so what
    [find_unknown_type_vars] returns has no duplicates and holds type
    variables only. *)
Theorem discovery_appends_new_type_variables
  (depth : nat) (context : InferContext) (node : Node)
  (value_set : ValueSet) (found : list Value) :
  _filter_type_vars value_set found
  = found ++ filter (fun type_var => isinstance type_var TypeVar = true
                                     ∧ type_var ∉ found)
                    (elements value_set)
  ∧ (forall found',
        check_node depth context node found = Ok found' ->
        found `prefix_of` found'
        ∧ (NoDup found -> NoDup found')
        ∧ (forall v, v ∈ found' ->
                     v ∈ found ∨ isinstance v TypeVar = true))
  ∧ (forall type_vars,
        find_unknown_type_vars context node = Ok type_vars ->
        NoDup type_vars
        ∧ Forall (fun v => isinstance v TypeVar = true) type_vars).
Proof.
  split; [apply filter_type_vars_closed_form|]. split.
  - intros found'. apply check_node_grows.
  - intros type_vars (_ & Hnodup & Hvars)%check_node_grows.
    split; [apply Hnodup, NoDup_nil_2|].
    apply Forall_forall. intros v Hv.
    destruct (Hvars v Hv) as [Hin|?]; [|done]. by apply elem_of_nil in Hin.
Qed.

End found.

(** ** Resolving an annotation *)

Section resolving.
Context {E : Engine}.

(** X5.  [infer_annotation] does not raise as long as the parser fails with
    syntax errors only, and logs at most one warning.  When the annotation
    infers to no value or to several, it returns them as they are and warns;
    when it infers to one value that is not a string, it returns that value
    and logs nothing; when it infers to one string, it returns what the
    parsed text of the string infers to, and the string itself (with a
    warning) when the text does not parse. *)
Theorem infer_annotation_never_raises
  (context : InferContext) (annotation : Node)
  (Hparser : forall s e, grammar_parse s = Raise e -> e = ParserSyntaxError) :
  let value_set := infer_node context annotation in
  (size value_set ≠ 1 ->
   infer_annotation context annotation
   = Logged [TypingIndexNotOneObject annotation value_set] (Ok value_set))
  ∧ (forall value,
        value_set = {[ value ]} -> is_string value = false ->
        infer_annotation context annotation = Logged [] (Ok {[ value ]}))
  ∧ (forall literal node,
        value_set = {[ literal ]} -> is_string literal = true ->
        grammar_parse (get_safe_value literal) = Ok node ->
        infer_annotation context annotation
        = Logged [] (Ok (infer_node context (anchor context node))))
  ∧ (forall literal,
        value_set = {[ literal ]} -> is_string literal = true ->
        (exists e, grammar_parse (get_safe_value literal) = Raise e) ->
        infer_annotation context annotation
        = Logged [AnnotationNotParsed (get_safe_value literal)]
            (Ok {[ literal ]}))
  ∧ exists values,
      outcome (infer_annotation context annotation) = Ok values
      ∧ length (log (infer_annotation context annotation)) ≤ 1.
Proof.
  intros value_set.
  assert (Hmany : size value_set ≠ 1 ->
                  infer_annotation context annotation
                  = Logged [TypingIndexNotOneObject annotation value_set]
                      (Ok value_set)).
  { intros Hsize. unfold infer_annotation. fold value_set.
    by destruct (decide (size value_set ≠ 1)). }
  assert (Hone : forall value,
             value_set = {[ value ]} ->
             infer_annotation context annotation
             = (if is_string value then
                  result ← _get_forward_reference_node context
                             (get_safe_value value);
                  match result with
                  | Some node => mret (infer_node context node)
                  | None => mret {[ value ]}
                  end
                else mret {[ value ]})).
  { intros value Hvalue. unfold infer_annotation. fold value_set.
    rewrite Hvalue, size_singleton.
    destruct (decide (1 ≠ 1)); [done|].
    rewrite elements_singleton. cbn [getitem lookup list_lookup].
    unfold mbind at 1, logged_bind. cbn [outcome log lift app].
    apply logged_eta. }
  assert (Hfail : forall literal,
             value_set = {[ literal ]} -> is_string literal = true ->
             (exists e, grammar_parse (get_safe_value literal) = Raise e) ->
             infer_annotation context annotation
             = Logged [AnnotationNotParsed (get_safe_value literal)]
                 (Ok {[ literal ]})).
  { intros literal Hvalue Hstring [e He].
    rewrite (Hone _ Hvalue), Hstring. unfold _get_forward_reference_node.
    rewrite He, (Hparser _ _ He). done. }
  assert (Hparse : forall literal node,
             value_set = {[ literal ]} -> is_string literal = true ->
             grammar_parse (get_safe_value literal) = Ok node ->
             infer_annotation context annotation
             = Logged [] (Ok (infer_node context (anchor context node)))).
  { intros literal node Hvalue Hstring Hnode.
    rewrite (Hone _ Hvalue), Hstring. unfold _get_forward_reference_node.
    by rewrite Hnode. }
  split; [exact Hmany|]. split.
  { intros value Hvalue Hstring. by rewrite (Hone _ Hvalue), Hstring. }
  split; [exact Hparse|]. split; [exact Hfail|].
  destruct (decide (size value_set = 1)) as [Hsize|Hsize].
  - apply size_1_elem_of in Hsize as [value Hvalue].
    apply leibniz_equiv in Hvalue.
    destruct (is_string value) eqn:Hstring.
    + destruct (grammar_parse (get_safe_value value)) as [node|e] eqn:Hnode.
      * rewrite (Hparse _ _ Hvalue Hstring Hnode). eexists. split; [done|].
        simpl. lia.
      * rewrite (Hfail _ Hvalue Hstring (ex_intro _ e Hnode)).
        eexists. split; [done|]. simpl. lia.
    + rewrite (Hone _ Hvalue), Hstring. eexists. split; [done|]. simpl. lia.
  - rewrite (Hmany Hsize). eexists. split; [done|]. simpl. lia.
Qed.

End resolving.

Lemma infer_annotation_never_raises_witness :
  infer_annotation (E := Demo.engine) Demo.context Demo.T1_literal_node
  = Logged [] (Ok {[ Demo.T1 ]}).
Proof.
  refine (proj1 (proj2 (proj2
    (infer_annotation_never_raises (E := Demo.engine)
       Demo.context Demo.T1_literal_node _)))
    Demo.T1_literal (Demo.eval_input (name "T1")) eq_refl eq_refl eq_refl).
  intros s e. cbn. unfold Demo.demo_grammar_parse.
  repeat case_decide; congruence.
Defined.

(** ** The annotations of a function definition *)

Lemma lookup_params_annotations_at (params : list Param)
  (dct : gmap string Node) (p : Param) :
  NoDup (param_name <$> params) -> p ∈ params ->
  foldl (fun dct function_param =>
           match param_annotation function_param with
           | Some param_annotation =>
               <[param_name function_param := param_annotation]> dct
           | None => dct
           end) dct params !! param_name p
  = match param_annotation p with
    | Some annotation => Some annotation
    | None => dct !! param_name p
    end.
Proof.
  revert dct. induction params as [|q params IH]; intros dct Hnames Hp.
  - by apply elem_of_nil in Hp.
  - rewrite fmap_cons in Hnames. apply NoDup_cons in Hnames as [Hq Hnames].
    simpl. apply elem_of_cons in Hp as [->|Hp].
    + rewrite lookup_params_annotations.
      * destruct (param_annotation q); [apply lookup_insert_eq|done].
      * apply Forall_forall. intros p Hp Heq. apply Hq. rewrite <- Heq.
        by apply list_elem_of_fmap_2.
    + rewrite (IH _ Hnames Hp).
      destruct (param_annotation p); [done|].
      destruct (param_annotation q); [|done].
      apply lookup_insert_ne. intros Heq. apply Hq. rewrite Heq.
      by apply list_elem_of_fmap_2.
Qed.

(** X6.  In a function definition whose parameters have distinct names,
    none of them [return], the dictionary of [py__annotations__] maps the
    name of every annotated parameter to its annotation and [return] to the
    return annotation, and has no other entry: a parameter without
    annotation, a function without return annotation and any other name are
    absent. *)
Theorem py__annotations___lookup (funcdef : FuncDef)
  (Hdistinct : NoDup (param_name <$> get_params funcdef))
  (Hkeyword : Forall (fun p => param_name p ≠ "return") (get_params funcdef)) :
  py__annotations__ funcdef !! "return" = funcdef_annotation funcdef
  ∧ (forall p,
        p ∈ get_params funcdef ->
        py__annotations__ funcdef !! param_name p = param_annotation p)
  ∧ (forall k,
        k ≠ "return" -> k ∉ param_name <$> get_params funcdef ->
        py__annotations__ funcdef !! k = None).
Proof.
  split; [by apply py__annotations___return|]. split.
  - intros p Hp. unfold py__annotations__.
    assert (param_name p ≠ "return") as Hne
      by (by eapply Forall_forall in Hkeyword).
    assert (forall dct : gmap string Node,
               dct !! param_name p = param_annotation p ->
               match funcdef_annotation funcdef with
               | Some return_annotation => <["return":=return_annotation]> dct
               | None => dct
               end !! param_name p = param_annotation p) as Hreturn.
    { intros dct Hdct. destruct (funcdef_annotation funcdef); [|done].
      by rewrite lookup_insert_ne. }
    apply Hreturn. rewrite (lookup_params_annotations_at _ _ _ Hdistinct Hp).
    by destruct (param_annotation p).
  - intros k Hk Hnot. unfold py__annotations__.
    assert (foldl (fun dct function_param =>
                     match param_annotation function_param with
                     | Some param_annotation =>
                         <[param_name function_param := param_annotation]> dct
                     | None => dct
                     end) (∅ : gmap string Node) (get_params funcdef) !! k
            = None) as Hparams.
    { rewrite lookup_params_annotations; [done|].
      apply Forall_forall. intros p Hp Heq. apply Hnot. rewrite <- Heq.
      by apply list_elem_of_fmap_2. }
    destruct (funcdef_annotation funcdef); [|done].
    by rewrite lookup_insert_ne.
Qed.

Lemma py__annotations___lookup_witness :
  py__annotations__ (tree_node Demo.f_identity) !! "return"
  = Some (name "T1")
  ∧ py__annotations__ (tree_node Demo.f_identity) !! "x" = Some (name "T1").
Proof.
  assert (NoDup (param_name <$> get_params (tree_node Demo.f_identity)))
    as Hdistinct by (repeat constructor; set_solver).
  assert (Forall (fun p => param_name p ≠ "return")
            (get_params (tree_node Demo.f_identity)))
    as Hkeyword by (repeat constructor; discriminate).
  destruct (py__annotations___lookup (tree_node Demo.f_identity)
              Hdistinct Hkeyword) as (Hreturn & Hparam & _).
  split; [exact Hreturn|].
  apply (Hparam (Demo.plain_param "x" (Some (name "T1")) 0 1)).
  apply list_elem_of_here.
Defined.

(** ** Type comments of parameters *)

Section param_comments.
Context {E : Engine}.

(** X7.  The type comment of a function header lists the parameters
    without the receiver of a bound method: the parameter at position
    [index + 1] of a bound method is resolved as the parameter at position
    [index] of a plain function with the same comment is, and the first
    parameter of a bound method resolves to nothing.  A parameter whose
    position is not below the number of fragments of the comment resolves
    to nothing as well. *)
Theorem param_comment_skips_receiver
  (funcdef : FuncDef) (context : InferContext) (comment : option string)
  (count index : nat) :
  _infer_param (function_value_of funcdef context true)
    (commented_param comment count (S index))
  = _infer_param (function_value_of funcdef context false)
      (commented_param comment count index)
  ∧ (forall values,
        outcome (_infer_param (function_value_of funcdef context true)
                   (commented_param comment count 0))
        = Ok values ->
        values = NO_VALUES)
  ∧ (forall text group1 warnings fragments values,
        comment = Some text ->
        re_match_group1 param_comment_re text = Some group1 ->
        _split_comment_param_declaration group1
        = Logged warnings (Ok fragments) ->
        length fragments ≤ index ->
        outcome (_infer_param (function_value_of funcdef context false)
                   (commented_param comment count index))
        = Ok values ->
        values = NO_VALUES).
Proof.
  split; [done|].
  unfold _infer_param, commented_param, function_value_of.
  cbn [param_annotation param_comment param_index all_params_len
       is_bound_method get_default_param_context].
  split.
  - intros values.
    destruct comment as [text|]; [|cbn; congruence].
    destruct (re_match_group1 param_comment_re text) as [group1|];
      [|cbn; congruence].
    destruct (_split_comment_param_declaration group1)
      as [warnings [fragments|e]]; unfold mbind, logged_bind;
      cbn [outcome log]; [|congruence].
    destruct (decide (length fragments ≠ count)); cbn; congruence.
  - intros text group1 warnings fragments values -> Hmatch Hsplit Hlen.
    rewrite Hmatch, Hsplit.
    unfold mbind, logged_bind. cbn [outcome log].
    rewrite (lookup_ge_None_2 fragments index Hlen).
    destruct (decide (length fragments ≠ count)); cbn; congruence.
Qed.

End param_comments.

(** ** Type comments of assignments *)

Section hints.
Context {E : Engine}.

Lemma count_targets_with_commas (targets : list Node) (k index : nat) :
  Forall (fun t => node_type t ≠ "operator") targets ->
  k < length targets ->
  count_targets (with_commas targets) (2 * k) index = Some (index + k).
Proof.
  intros Htargets. revert k index.
  induction Htargets as [|t targets Ht Htargets IH]; intros k index Hk;
    [simpl in Hk; lia|].
  destruct k as [|k].
  - replace (index + 0) with index by lia. by destruct targets.
  - simpl in Hk. destruct targets as [|t' targets]; [simpl in Hk; lia|].
    replace (2 * S k) with (S (S (2 * k))) by lia.
    change (with_commas (t :: t' :: targets))
      with (t :: Leaf "operator" "" "," :: with_commas (t' :: targets)).
    cbn [count_targets node_type].
    destruct (decide (node_type t = "operator")); [done|].
    destruct (decide ("operator" = "operator")); [|done].
    rewrite IH by (simpl in *; lia). f_equal. lia.
Qed.

Lemma count_targets_beyond (cs : list Node) (position index : nat) :
  length cs ≤ position -> count_targets cs position index = None.
Proof.
  revert position index. induction cs as [|c cs IH]; intros position index;
    [done|].
  simpl. intros Hlen. destruct position as [|position]; [lia|].
  destruct (decide (node_type c = "operator")); apply IH; lia.
Qed.

(** X8.  A type comment on an assignment to several targets gives each
    target the element at its own position, counted in targets and not in
    children: for the target that is child number [2 * k] of a list of
    targets separated by commas, [_find_type_from_comment_hint] asks the
    annotation string for index [k].  A name that is not one of the
    children resolves to nothing, whatever the comment says, and for a
    single target no index is used. *)
Theorem comment_hint_counts_targets
  (context : InferContext) (comment : option string) (type_ : string)
  (targets : list Node) (k : nat) (varlist : Node)
  (name_position : option nat)
  (Htype : type_ ∈ ["testlist_star_expr"; "exprlist"; "testlist"])
  (Htargets : Forall (fun t => node_type t ≠ "operator") targets)
  (Hk : k < length targets)
  (Hsingle : node_type varlist
             ∉ ["testlist_star_expr"; "exprlist"; "testlist"]) :
  let hint (index : option nat) : logged ValueSet :=
    match comment with
    | None => mret NO_VALUES
    | Some text =>
        match re_match_group1 hint_comment_re text with
        | None => mret NO_VALUES
        | Some group1 =>
            value_set ← _infer_annotation_string context (strip group1) index;
            mret (vs_execute_annotation value_set)
        end
    end in
  _find_type_from_comment_hint context comment
    (BaseNode type_ (with_commas targets)) (Some (2 * k))
  = hint (Some k)
  ∧ _find_type_from_comment_hint context comment
      (BaseNode type_ (with_commas targets)) None
    = Logged [] (Ok NO_VALUES)
  ∧ (forall position,
        length (with_commas targets) ≤ position ->
        _find_type_from_comment_hint context comment
          (BaseNode type_ (with_commas targets)) (Some position)
        = Logged [] (Ok NO_VALUES))
  ∧ _find_type_from_comment_hint context comment varlist name_position
    = hint None.
Proof.
  intros hint.
  assert (Hlist : forall position,
             _find_type_from_comment_hint context comment
               (BaseNode type_ (with_commas targets)) position
             = match position
                     ≫= (fun p => count_targets (with_commas targets) p 0) with
               | None => Logged [] (Ok NO_VALUES)
               | Some index => hint (Some index)
               end).
  { intros position. unfold _find_type_from_comment_hint.
    cbn [node_type children]. rewrite (bool_decide_eq_true_2 _ Htype).
    rewrite logged_bind_lift_ok. by destruct (position ≫= _). }
  split; [|split; [|split]].
  - rewrite Hlist. cbn [mbind option_bind].
    by rewrite (count_targets_with_commas _ _ _ Htargets Hk).
  - by rewrite Hlist.
  - intros position Hlen. rewrite Hlist. cbn [mbind option_bind].
    by rewrite (count_targets_beyond _ _ _ Hlen).
  - unfold _find_type_from_comment_hint.
    by rewrite (bool_decide_eq_false_2 _ Hsingle).
Qed.

End hints.

Lemma comment_hint_counts_targets_witness :
  _find_type_from_comment_hint (E := Demo.engine) Demo.context
    (Some "# type: int, str")
    (BaseNode "testlist_star_expr" (with_commas [name "a"; name "b"]))
    (Some (2 * 1))
  = Logged [] (Ok {[ Demo.str_instance ]}).
Proof.
  rewrite (proj1 (comment_hint_counts_targets (E := Demo.engine)
                    Demo.context (Some "# type: int, str")
                    "testlist_star_expr" [name "a"; name "b"] 1
                    (name "a") None
                    ltac:(set_solver)
                    ltac:(repeat constructor; discriminate)
                    ltac:(simpl; lia)
                    ltac:(cbn; set_solver))).
  vm_compute. reflexivity.
Defined.

(** ** Substituting the bindings *)

Section substitution.
Context {E : Engine}.

Lemma substitute_plain_values (d : TypeVarDict) (values : ValueSet) :
  (forall v, v ∈ values -> plain_value v) ->
  substitute_type_vars d values = values.
Proof.
  intros Hplain. unfold substitute_type_vars.
  apply set_eq. intros w. rewrite elem_of_set_bind. split.
  - intros (v & Hv & Hw). destruct (Hplain v Hv) as [Hg Ht].
    rewrite Hg, Ht in Hw. set_solver.
  - intros Hw. exists w. split; [done|].
    destruct (Hplain w Hw) as [-> ->]. set_solver.
Qed.

(** X9.  Substitution leaves a value that is neither parameterized nor a
    type variable as it is, whatever the dictionary binds, and substitutes
    each member of a union on its own.  So when the resolved return
    annotation holds such values only and the dictionary of the call could
    be built, the unification path of [infer_return_types] returns what the
    direct path returns. *)
Theorem substitution_leaves_plain_values
  (function : Function) (arguments : CallArguments) (annotation : Node)
  (d : TypeVarDict) (values : ValueSet) (warnings : list warning)
  (Hvalues : infer_annotation (get_default_param_context function) annotation
             = Logged warnings (Ok values))
  (Hplain : forall v, v ∈ values -> plain_value v)
  (Hdict : infer_type_vars_for_execution function arguments
             (py__annotations__ (tree_node function)) = Ok d) :
  substitute_type_vars d values = values
  ∧ (forall d' values',
        substitute_type_vars d' (values ∪ values')
        = values ∪ substitute_type_vars d' values')
  ∧ unification_path function arguments annotation
    = direct_path (get_default_param_context function) annotation.
Proof.
  split; [by apply substitute_plain_values|]. split.
  - intros d' values'. apply set_eq. intros w.
    rewrite elem_of_union. unfold substitute_type_vars.
    rewrite !elem_of_set_bind. split.
    + intros (v & [Hv|Hv]%elem_of_union & Hw).
      * left. destruct (Hplain v Hv) as [Hg Ht]. rewrite Hg, Ht in Hw.
        set_solver.
      * right. by exists v.
    + intros [Hw|(v & Hv & Hw)].
      * exists w. split; [set_solver|].
        destruct (Hplain w Hw) as [-> ->]. set_solver.
      * exists v. split; [set_solver|done].
  - unfold unification_path, direct_path. rewrite Hvalues, Hdict.
    unfold mbind, logged_bind. cbn.
    by rewrite (substitute_plain_values _ _ Hplain).
Qed.

End substitution.

Lemma substitution_leaves_plain_values_witness :
  unification_path (E := Demo.engine) Demo2.f_int Demo.arguments (name "int")
  = direct_path (E := Demo.engine) Demo.context (name "int").
Proof.
  refine (proj2 (proj2
    (substitution_leaves_plain_values (E := Demo.engine)
       Demo2.f_int Demo.arguments (name "int")
       {[ "T" := {[ Demo.int_class ]} ]} {[ Demo.int_class ]} [] _ _ _))).
  - vm_compute. reflexivity.
  - intros v ->%elem_of_singleton. split; reflexivity.
  - vm_compute. reflexivity.
Defined.

(** ** Tuples and iterables *)

Section tuples.
Context {E : Engine}.




(** X11.  [Iterable[T]], taken instance-level, binds [T] to the classes of
    what iterating the actual values gives, as the docstring of
    [_infer_type_vars] says of [iter([1])]; when iterating gives nothing,
    nothing is bound. *)
Theorem iterable_binds_classes_of_elements
  (depth : nat) (annotation_value T : Value) (value_set : ValueSet)
  (rest : list ValueSet)
  (Hnot_var : isinstance annotation_value TypeVar = false)
  (Hnot_typing : isinstance annotation_value TypingClassValueWithIndex = false)
  (Hgeneric : isinstance annotation_value GenericClass = true)
  (Hname : py__name__ annotation_value = "Iterable")
  (Hgenerics : get_generics annotation_value = {[ T ]} :: rest)
  (HT : isinstance T TypeVar = true) :
  (merge_types_of_iterate value_set ≠ ∅ ->
   _infer_type_vars (S (S depth)) annotation_value value_set false
   = Ok {[ py__name__ T
           := vs_py__class__ (merge_types_of_iterate value_set) ]})
  ∧ (merge_types_of_iterate value_set = ∅ ->
     _infer_type_vars (S (S depth)) annotation_value value_set false = Ok ∅).
Proof.
  assert (Hcase :
    _infer_type_vars (S (S depth)) annotation_value value_set false
    = Ok (_merge_type_var_dicts ∅
            {[ py__name__ T
               := vs_py__class__ (merge_types_of_iterate value_set) ]})).
  { cbn [_infer_type_vars].
    rewrite Hnot_var, Hnot_typing, Hgeneric, Hname, Hgenerics.
    rewrite (bool_decide_eq_true_2 _ eq_refl). cbn [negb andb].
    unfold merge_nested. rewrite elements_singleton, for_each_singleton.
    by rewrite HT. }
  rewrite Hcase. split.
  - intros Hiter. rewrite merge_singleton_into_empty; [done|].
    apply set_choose_L in Hiter as [v Hv]. unfold vs_py__class__.
    intros Hempty.
    assert (py__class__ v
            ∈ (set_map py__class__ (merge_types_of_iterate value_set)
               : ValueSet)) as Hin by (apply elem_of_map; eauto).
    rewrite Hempty in Hin. set_solver.
  - intros ->. f_equal. apply map_eq. intros k.
    rewrite lookup_merge_type_var_dicts, lookup_empty.
    unfold merged_binding, vs_py__class__. rewrite set_map_empty.
    destruct (decide (k = py__name__ T)) as [->|Hk].
    + rewrite lookup_singleton_eq. by destruct (decide (∅ ≠ ∅)).
    + by rewrite lookup_singleton_ne.
Qed.

End tuples.


Lemma iterable_binds_classes_of_elements_witness :
  _infer_type_vars (E := Demo2.engine) 2 Demo2.Iterable_T1
    {[ Demo2.list_instance ]} false
  = Ok {[ "T" := {[ Demo.int_class ]} ]}.
Proof.
  rewrite (proj1 (iterable_binds_classes_of_elements (E := Demo2.engine)
                    0 Demo2.Iterable_T1 Demo.T1 {[ Demo2.list_instance ]} []
                    eq_refl eq_refl eq_refl eq_refl eq_refl eq_refl)).
  - vm_compute. reflexivity.
  - vm_compute. discriminate.
Defined.

(** ** Callables *)

Section callables.
Context {E : Engine}.

Lemma for_each_invariant_elem {A S} (P : S -> Prop) (l : list A)
  (body : A -> S -> result S) s r :
  (forall x s s', x ∈ l -> P s -> body x s = Ok s' -> P s') ->
  P s -> for_each l body s = Ok r -> P r.
Proof.
  revert s. induction l as [|x l IH]; intros s Hbody Hs; simpl.
  - by intros [= <-].
  - destruct (body x s) as [s'|e] eqn:Hx; simpl; [|done].
    apply IH.
    + intros y t t' Hy. apply Hbody. by apply list_elem_of_further.
    + eapply Hbody; [apply list_elem_of_here|done|done].
Qed.



(** X13.  [infer_return_for_callable] does not merge the dictionaries of
    the list values among the parameter values, it updates one with the
    next: every binding of the dictionary it substitutes is, whole, the
    binding that one list value gave, never a union over several.  When no
    parameter value is a list, the result values are substituted with the
    empty dictionary. *)
Theorem callable_bindings_are_not_merged
  (arguments : CallArguments) (param_values result_values : ValueSet) :
  (forall r,
      infer_return_for_callable arguments param_values result_values
      = Ok r ->
      exists all_type_vars : TypeVarDict,
        r = vs_execute_annotation
              (substitute_type_vars all_type_vars result_values)
        ∧ forall k values,
            all_type_vars !! k = Some values ->
            exists pv d,
              pv ∈ param_values
              ∧ array_type pv = Some "list"
              ∧ infer_type_vars_for_callable arguments (py__iter__ pv)
                = Ok d
              ∧ d !! k = Some values)
  ∧ ((forall pv, pv ∈ param_values -> array_type pv ≠ Some "list") ->
     infer_return_for_callable arguments param_values result_values
     = Ok (vs_execute_annotation (substitute_type_vars ∅ result_values))).
Proof.
  unfold infer_return_for_callable. split.
  - intros r.
    destruct (for_each (elements param_values) _ ∅)
      as [all_type_vars|e] eqn:Hloop; simpl; [|done].
    intros [= <-]. exists all_type_vars. split; [done|].
    refine (for_each_invariant_elem
              (fun all : TypeVarDict =>
                 forall k values,
                   all !! k = Some values ->
                   exists pv d,
                     pv ∈ param_values
                     ∧ array_type pv = Some "list"
                     ∧ infer_type_vars_for_callable arguments (py__iter__ pv)
                       = Ok d
                     ∧ d !! k = Some values)
              _ _ _ _ _ _ Hloop).
    + intros pv s s' Hpv%elem_of_elements Hs.
      destruct (decide (array_type pv = Some "list")) as [Hlist|_];
        [|by intros [= <-]].
      destruct (infer_type_vars_for_callable arguments (py__iter__ pv))
        as [d|e] eqn:Hd; simpl; [|done].
      intros [= <-] k values [Hk|[_ Hk]]%lookup_union_Some_raw.
      * by exists pv, d.
      * by apply Hs.
    + intros k values. by rewrite lookup_empty.
  - intros Hnone.
    rewrite (for_each_unchanged (elements param_values) _ ∅); [done|].
    intros pv s Hpv%elem_of_elements.
    by destruct (decide (array_type pv = Some "list")) as [?%Hnone|_].
Qed.

End callables.

(** ** The comment patterns *)

Lemma re_run_chars (cs : list ascii) (rest : list regex_item)
  (s st cap r : list ascii) :
  re_run (map Chr cs ++ rest) s st cap = Some r
  <-> exists s', s = cs ++ s' ∧ re_run rest s' st cap = Some r.
Proof.
  revert s. induction cs as [|c cs IH]; intros s; simpl.
  - split; [by exists s|]. by intros (s' & -> & ?).
  - destruct s as [|c' s]; [split; [done|by intros (? & ? & ?)]|].
    destruct (Ascii.eqb c c') eqn:Hc.
    + apply Ascii.eqb_eq in Hc as <-. rewrite IH. split.
      * intros (s' & -> & ?). by exists s'.
      * intros (s' & [= ->] & ?). by exists s'.
    + apply Ascii.eqb_neq in Hc. split; [done|].
      intros (s' & [= ? ?] & ?). done.
Qed.

Lemma re_run_star_nil (p : ascii -> bool) (rest : list regex_item)
  (st cap : list ascii) :
  re_run (Star p :: rest) [] st cap = re_run rest [] st cap.
Proof. reflexivity. Qed.

Lemma re_run_star_cons (p : ascii -> bool) (rest : list regex_item)
  (c : ascii) (s st cap : list ascii) :
  re_run (Star p :: rest) (c :: s) st cap
  = if p c then
      match re_run (Star p :: rest) s st cap with
      | Some r => Some r
      | None => re_run rest (c :: s) st cap
      end
    else re_run rest (c :: s) st cap.
Proof. reflexivity. Qed.

Lemma re_run_star_sound (p : ascii -> bool) (rest : list regex_item)
  (s st cap r : list ascii) :
  re_run (Star p :: rest) s st cap = Some r ->
  exists pre suf,
    s = pre ++ suf ∧ Forall (fun c => p c = true) pre
    ∧ re_run rest suf st cap = Some r.
Proof.
  induction s as [|c s IH].
  - rewrite re_run_star_nil. intros Hr. by exists [], [].
  - rewrite re_run_star_cons.
    destruct (p c) eqn:Hc; [|intros Hr; by exists [], (c :: s)].
    destruct (re_run (Star p :: rest) s st cap) as [r'|] eqn:Hstar.
    + intros [= <-]. destruct (IH eq_refl) as (pre & suf & -> & Hpre & Hr).
      exists (c :: pre), suf. by repeat split; [constructor|].
    + intros Hr. by exists [], (c :: s).
Qed.

Lemma re_run_star_complete (p : ascii -> bool) (rest : list regex_item)
  (pre suf st cap : list ascii) :
  Forall (fun c => p c = true) pre ->
  is_Some (re_run rest suf st cap) ->
  is_Some (re_run (Star p :: rest) (pre ++ suf) st cap).
Proof.
  intros Hpre Hrest. induction Hpre as [|c pre Hc _ IH]; simpl app.
  - destruct suf as [|c suf]; [by rewrite re_run_star_nil|].
    rewrite re_run_star_cons. destruct (p c); [|done].
    by destruct (re_run (Star p :: rest) suf st cap).
  - rewrite re_run_star_cons, Hc. by destruct IH as [r ->].
Qed.


Lemma re_run_chars_some (cs : list ascii) (rest : list regex_item)
  (s st cap : list ascii) :
  is_Some (re_run rest s st cap) ->
  is_Some (re_run (map Chr cs ++ rest) (cs ++ s) st cap).
Proof. intros [r Hr]. exists r. apply re_run_chars. eauto. Qed.

Lemma re_run_star_greedy (p : ascii -> bool) (rest : list regex_item)
  (s st cap : list ascii) :
  (forall s', is_Some (re_run rest s' st cap)) ->
  exists pre suf,
    s = pre ++ suf ∧ Forall (fun c => p c = true) pre
    ∧ match suf with [] => True | c :: _ => p c = false end
    ∧ re_run (Star p :: rest) s st cap = re_run rest suf st cap.
Proof.
  intros Hrest. induction s as [|c s IH].
  - by exists [], [].
  - rewrite re_run_star_cons. destruct (p c) eqn:Hc.
    + destruct IH as (pre & suf & -> & Hpre & Hsuf & ->).
      exists (c :: pre), suf. split; [done|]. split; [by constructor|].
      split; [done|]. by destruct (Hrest suf) as [r ->].
    + by exists [], (c :: s).
Qed.

Lemma param_comment_re_items :
  param_comment_re
  = map Chr (list_ascii_of_string "#")
    ++ Star is_space :: map Chr (list_ascii_of_string "type:")
    ++ Star is_space :: map Chr (list_ascii_of_string "(")
    ++ GroupOpen :: Star not_hash :: GroupClose
    :: map Chr (list_ascii_of_string ")")
    ++ Star is_space :: map Chr (list_ascii_of_string "->") ++ [].
Proof. reflexivity. Qed.

Lemma return_comment_re_items :
  return_comment_re
  = map Chr (list_ascii_of_string "#")
    ++ Star is_space :: map Chr (list_ascii_of_string "type:")
    ++ Star is_space :: map Chr (list_ascii_of_string "(")
    ++ Star not_hash :: map Chr (list_ascii_of_string ")")
    ++ Star is_space :: map Chr (list_ascii_of_string "->")
    ++ Star is_space :: GroupOpen :: Star not_hash :: GroupClose :: [].
Proof. reflexivity. Qed.

Lemma re_run_group_open rest s st cap :
  re_run (GroupOpen :: rest) s st cap = re_run rest s s cap.
Proof. reflexivity. Qed.

Lemma re_run_group_close rest s st cap :
  re_run (GroupClose :: rest) s st cap
  = re_run rest s st (take (length st - length s) st).
Proof. reflexivity. Qed.

Lemma take_group (g rest : list ascii) :
  take (length (g ++ rest) - length rest) (g ++ rest) = g.
Proof.
  rewrite length_app. replace (length g + length rest - length rest)
    with (length g) by lia.
  by rewrite take_app_length.
Qed.

Lemma re_match_group1_run pattern comment group1 :
  re_match_group1 pattern comment = Some group1 ->
  re_run pattern (list_ascii_of_string comment) [] []
  = Some (list_ascii_of_string group1).
Proof.
  unfold re_match_group1.
  destruct (re_run pattern (list_ascii_of_string comment) [] [])
    as [r|]; simpl; [|done].
  intros [= <-]. by rewrite list_ascii_of_string_of_list_ascii.
Qed.

(** X14.  The pattern for the parameters of a type comment matches exactly
    the comments that read [#], white space, [type:], white space, an
    opening parenthesis, a declaration without [#], a closing parenthesis,
    white space and [->], followed by anything; the group that the match
    returns is such a declaration of the comment.  So the declaration that
    is split into fragments never holds a [#], and a comment without a
    closing parenthesis before the arrow is not a type comment. *)
Theorem param_comment_re_shape (comment : string) :
  (forall group1,
      re_match_group1 param_comment_re comment = Some group1 ->
      exists ws1 ws2 ws3 tail,
        list_ascii_of_string comment
        = list_ascii_of_string "#" ++ ws1 ++ list_ascii_of_string "type:"
          ++ ws2 ++ list_ascii_of_string "("
          ++ list_ascii_of_string group1 ++ list_ascii_of_string ")"
          ++ ws3 ++ list_ascii_of_string "->" ++ tail
        ∧ all_space ws1 ∧ all_space ws2 ∧ all_space ws3
        ∧ no_hash (list_ascii_of_string group1))
  ∧ (forall ws1 ws2 ws3 declaration tail,
        list_ascii_of_string comment
        = list_ascii_of_string "#" ++ ws1 ++ list_ascii_of_string "type:"
          ++ ws2 ++ list_ascii_of_string "("
          ++ declaration ++ list_ascii_of_string ")"
          ++ ws3 ++ list_ascii_of_string "->" ++ tail ->
        all_space ws1 -> all_space ws2 -> all_space ws3 ->
        no_hash declaration ->
        is_Some (re_match_group1 param_comment_re comment)).
Proof.
  split.
  - intros group1 H%re_match_group1_run. rewrite param_comment_re_items in H.
    apply re_run_chars in H as (s1 & Hs & H).
    apply re_run_star_sound in H as (ws1 & s2 & -> & Hws1 & H).
    apply re_run_chars in H as (s3 & -> & H).
    apply re_run_star_sound in H as (ws2 & s4 & -> & Hws2 & H).
    apply re_run_chars in H as (s5 & -> & H).
    rewrite re_run_group_open in H.
    apply re_run_star_sound in H as (g & s6 & -> & Hg & H).
    rewrite re_run_group_close in H.
    apply re_run_chars in H as (s7 & -> & H).
    apply re_run_star_sound in H as (ws3 & s8 & -> & Hws3 & H).
    apply re_run_chars in H as (tail & -> & H).
    injection H as H. rewrite take_group in H. subst g.
    by exists ws1, ws2, ws3, tail.
  - intros ws1 ws2 ws3 declaration tail Hs Hws1 Hws2 Hws3 Hdecl.
    unfold re_match_group1. rewrite Hs, param_comment_re_items.
    apply fmap_is_Some.
    apply re_run_chars_some, re_run_star_complete; [done|].
    apply re_run_chars_some, re_run_star_complete; [done|].
    apply re_run_chars_some. rewrite re_run_group_open.
    apply re_run_star_complete; [done|]. rewrite re_run_group_close.
    apply re_run_chars_some, re_run_star_complete; [done|].
    by apply re_run_chars_some.
Qed.

(** X15.  The pattern for the return type of a type comment returns as its
    group the text behind the arrow up to the end of the comment or to the
    next [#]: the group holds no [#], does not start with white space, and
    what follows it in the comment is nothing or starts with [#]. *)
Theorem return_comment_re_group (comment group1 : string)
  (Hmatch : re_match_group1 return_comment_re comment = Some group1) :
  exists ws1 ws2 parameters ws3 ws4 tail,
    list_ascii_of_string comment
    = list_ascii_of_string "#" ++ ws1 ++ list_ascii_of_string "type:"
      ++ ws2 ++ list_ascii_of_string "(" ++ parameters
      ++ list_ascii_of_string ")" ++ ws3 ++ list_ascii_of_string "->"
      ++ ws4 ++ list_ascii_of_string group1 ++ tail
    ∧ all_space ws1 ∧ all_space ws2 ∧ all_space ws3 ∧ all_space ws4
    ∧ no_hash parameters ∧ no_hash (list_ascii_of_string group1)
    ∧ match list_ascii_of_string group1 ++ tail with
      | [] => True
      | c :: _ => is_space c = false
      end
    ∧ match tail with
      | [] => True
      | c :: _ => c = "#"%char
      end.
Proof.
  apply re_match_group1_run in Hmatch as H.
  rewrite return_comment_re_items in H.
  apply re_run_chars in H as (s1 & Hs & H).
  apply re_run_star_sound in H as (ws1 & s2 & -> & Hws1 & H).
  apply re_run_chars in H as (s3 & -> & H).
  apply re_run_star_sound in H as (ws2 & s4 & -> & Hws2 & H).
  apply re_run_chars in H as (s5 & -> & H).
  apply re_run_star_sound in H as (parameters & s6 & -> & Hparams & H).
  apply re_run_chars in H as (s7 & -> & H).
  apply re_run_star_sound in H as (ws3 & s8 & -> & Hws3 & H).
  apply re_run_chars in H as (s9 & -> & H).
  assert (Hlast : forall s st cap,
             is_Some (re_run [Star not_hash; GroupClose] s st cap)).
  { intros s st cap.
    destruct (re_run_star_greedy not_hash [GroupClose] s st cap)
      as (? & ? & _ & _ & _ & ->); by eauto. }
  destruct (re_run_star_greedy is_space
              [GroupOpen; Star not_hash; GroupClose] s9 [] [])
    as (ws4 & s10 & -> & Hws4 & Hs10 & Heq).
  { intros s'. rewrite re_run_group_open. apply Hlast. }
  rewrite Heq, re_run_group_open in H.
  destruct (re_run_star_greedy not_hash [GroupClose] s10 s10 [])
    as (g & tail & -> & Hg & Htail & Heq'); [by eauto|].
  rewrite Heq', re_run_group_close in H. injection H as H.
  rewrite take_group in H. subst g.
  exists ws1, ws2, parameters, ws3, ws4, tail.
  repeat (split; [done|]).
  destruct tail as [|c tail]; [done|].
  unfold not_hash in Htail. apply negb_false_iff in Htail.
  by apply Ascii.eqb_eq in Htail.
Qed.

Lemma return_comment_re_group_witness :
  exists ws1 ws2 parameters ws3 ws4 tail,
    list_ascii_of_string "# type: (int) ->  List[str]  # noqa"
    = list_ascii_of_string "#" ++ ws1 ++ list_ascii_of_string "type:"
      ++ ws2 ++ list_ascii_of_string "(" ++ parameters
      ++ list_ascii_of_string ")" ++ ws3 ++ list_ascii_of_string "->"
      ++ ws4 ++ list_ascii_of_string "List[str]  " ++ tail
    ∧ all_space ws1 ∧ all_space ws2 ∧ all_space ws3 ∧ all_space ws4
    ∧ no_hash parameters ∧ no_hash (list_ascii_of_string "List[str]  ")
    ∧ match list_ascii_of_string "List[str]  " ++ tail with
      | [] => True
      | c :: _ => is_space c = false
      end
    ∧ match tail with
      | [] => True
      | c :: _ => c = "#"%char
      end.
Proof.
  apply (return_comment_re_group "# type: (int) ->  List[str]  # noqa"
           "List[str]  ").
  reflexivity.
Defined.

(** ** Fragments *)

Lemma lstrip_idempotent (l : list ascii) : lstrip (lstrip l) = lstrip l.
Proof.
  induction l as [|c l IH]; [done|]. simpl.
  destruct (is_space c) eqn:Hc; [done|]. simpl. by rewrite Hc.
Qed.

Lemma lstrip_stripped (l : list ascii) :
  lstrip l = [] ∨ exists c l', lstrip l = c :: l' ∧ is_space c = false.
Proof.
  induction l as [|c l IH]; [by left|]. simpl.
  destruct (is_space c) eqn:Hc; [done|]. right. by exists c, l.
Qed.

Lemma lstrip_snoc (l : list ascii) (c : ascii) :
  is_space c = false -> lstrip (l ++ [c]) = lstrip l ++ [c].
Proof.
  intros Hc. induction l as [|d l IH]; simpl; [by rewrite Hc|].
  by destruct (is_space d).
Qed.

Lemma strip_idempotent (s : string) : strip (strip s) = strip s.
Proof.
  unfold strip. rewrite list_ascii_of_string_of_list_ascii. f_equal.
  set (l := list_ascii_of_string s).
  assert (Hleft : lstrip (rev (lstrip (rev (lstrip l))))
                  = rev (lstrip (rev (lstrip l)))).
  { destruct (lstrip_stripped l) as [->|(c & l' & -> & Hc)]; [done|].
    change (rev (c :: l')) with (rev l' ++ [c]).
    rewrite (lstrip_snoc _ _ Hc), rev_app_distr. simpl.
    by rewrite Hc. }
  by rewrite Hleft, rev_involutive, lstrip_idempotent.
Qed.

Section fragments.
Context {E : Engine}.

(** X16.  The fragments that [_split_comment_param_declaration] returns are
    stripped: none starts or ends with white space, so stripping one again
    changes nothing.  A warning is logged only when the text does not
    parse, and then no fragment is returned. *)
Theorem split_comment_param_declaration_stripped
  (decl_text : string) (warnings : list warning) (fragments : list string)
  (Hsplit : _split_comment_param_declaration decl_text
            = Logged warnings (Ok fragments)) :
  Forall (fun fragment => strip fragment = fragment) fragments
  ∧ (warnings = []
     ∨ warnings = [CommentNotValidPython decl_text] ∧ fragments = []).
Proof.
  revert Hsplit. unfold _split_comment_param_declaration.
  destruct (m ← parse decl_text; cs ← children m; getitem cs 0)
    as [node|e].
  - destruct (is_name_like node).
    + intros [= <- <-]. split; [|by left].
      repeat constructor. apply strip_idempotent.
    + destruct (children node) as [cs|e].
      * intros [= <- <-]. split; [|by left].
        apply Forall_fmap, Forall_forall. intros child _.
        apply strip_idempotent.
      * destruct e; intros [= <- <-] || intros [=]. split; [done|by left].
  - destruct e; intros [= <- <-] || intros [=]. split; [done|by right].
Qed.

End fragments.

Lemma split_comment_param_declaration_stripped_witness :
  Forall (fun fragment => strip fragment = fragment) ["foo"; "Bar[baz, biz]"].
Proof.
  apply (split_comment_param_declaration_stripped (E := Demo.engine)
           "foo, Bar[baz, biz]" [] ["foo"; "Bar[baz, biz]"]).
  reflexivity.
Defined.

(** ** Only type variables are bound *)

Section keys.
Context {E : Engine}.

Lemma binds_type_variables_empty : binds_type_variables ∅.
Proof. intros k [v Hv]. by rewrite lookup_empty in Hv. Qed.

Lemma merge_binds_type_variables (base new : TypeVarDict) :
  binds_type_variables base -> binds_type_variables new ->
  binds_type_variables (_merge_type_var_dicts base new).
Proof.
  intros Hbase Hnew k [v Hv]. rewrite lookup_merge_type_var_dicts in Hv.
  unfold merged_binding in Hv. destruct (new !! k) as [w|] eqn:Hk.
  - apply Hnew. by rewrite Hk.
  - apply Hbase. by rewrite Hv.
Qed.

Lemma merge_nested_binds rec nested d r :
  (forall v r, rec v = Ok r -> binds_type_variables r) ->
  binds_type_variables d -> merge_nested rec nested d = Ok r ->
  binds_type_variables r.
Proof.
  intros Hrec Hd. unfold merge_nested. apply for_each_invariant; [|done].
  intros v s s' Hs. destruct (rec v) as [new|e] eqn:Hv; simpl; [|done].
  intros [= <-]. apply merge_binds_type_variables; [done|by eapply Hrec].
Qed.

Lemma merge_zipped_binds (rec : Value -> ValueSet -> result TypeVarDict)
  annotation_generics actual_generics d r :
  (forall v actual r, rec v actual = Ok r -> binds_type_variables r) ->
  binds_type_variables d ->
  merge_zipped rec annotation_generics actual_generics d = Ok r ->
  binds_type_variables r.
Proof.
  intros Hrec Hd. unfold merge_zipped. apply for_each_invariant; [|done].
  intros pair s s' Hs. apply merge_nested_binds; [|done].
  intros v r'. apply Hrec.
Qed.

Lemma infer_type_vars_binds depth annotation_value value_set
  is_class_value d :
  _infer_type_vars depth annotation_value value_set is_class_value = Ok d ->
  binds_type_variables d.
Proof.
  revert annotation_value value_set is_class_value d.
  induction depth as [|depth IH];
    intros annotation_value value_set is_class_value d; [done|].
  assert (Hrec : forall flag v actual r,
             _infer_type_vars depth v actual flag = Ok r ->
             binds_type_variables r) by (intros; by eapply IH).
  pose proof binds_type_variables_empty as Hempty.
  assert (Hok : forall r : TypeVarDict,
             Ok (∅ : TypeVarDict) = Ok r -> binds_type_variables r)
    by (by intros r [= <-]).
  cbn [_infer_type_vars].
  destruct (isinstance annotation_value TypeVar) eqn:Hvar.
  { assert (forall values r,
               Ok ({[ py__name__ annotation_value := values ]} : TypeVarDict)
               = Ok r -> binds_type_variables r) as Hsingle.
    { intros values r [= <-] k [v Hv].
      apply lookup_singleton_Some in Hv as [<- _].
      by exists annotation_value. }
    destruct (negb is_class_value); apply Hsingle. }
  destruct (isinstance annotation_value TypingClassValueWithIndex).
  - destruct (decide (py__name__ annotation_value = "Type")).
    { destruct (get_generics annotation_value) as [|given0 rest];
        [apply Hok|].
      destruct is_class_value.
      - apply for_each_invariant; [|done]. intros v s s' Hs.
        destruct (decide (py__name__ annotation_value = py__name__ v));
          [|by intros [= <-]].
        apply merge_zipped_binds; [intros; eapply Hrec; eassumption|done].
      - apply merge_nested_binds; [intros; eapply Hrec; eassumption|done]. }
    destruct (decide (py__name__ annotation_value = "Callable")).
    { destruct (get_generics annotation_value) as [|g0 [|g1 [|g2 rest]]];
        try apply Hok.
      apply merge_nested_binds; [intros; eapply Hrec; eassumption|done]. }
    destruct (decide (py__name__ annotation_value = "Tuple")); [|apply Hok].
    apply for_each_invariant; [|done]. intros v s s' Hs.
    destruct (negb (isinstance _ DefineGenericBase)); [by intros [= <-]|].
    destruct (elements (execute_annotation annotation_value))
      as [|tuple_annotation [|? ?]]; [done| |done].
    destruct (_is_homogenous tuple_annotation).
    + destruct (getitem (get_generics annotation_value) 0); simpl; [|done].
      apply merge_nested_binds; [intros; eapply Hrec; eassumption|done].
    + apply merge_zipped_binds; [intros; eapply Hrec; eassumption|done].
  - destruct (isinstance annotation_value GenericClass); [|apply Hok].
    destruct (bool_decide (py__name__ annotation_value = "Iterable")
              && negb is_class_value).
    + destruct (get_generics annotation_value) as [|given0 rest];
        [apply Hok|]. apply merge_nested_binds; [intros; eapply Hrec; eassumption|done].
    + apply for_each_invariant; [|done]. intros v s s' Hs.
      destruct (negb (has_is_instance v)); [by intros [= <-]|].
      rewrite walk_mro_find.
      destruct (find_generic_ancestor _ _); [|by intros [= <-]].
      apply merge_zipped_binds; [intros; eapply Hrec; eassumption|done].
Qed.

(** X17.  Unification binds type variables and nothing else: every key of
    a dictionary that [_infer_type_vars], [infer_type_vars_for_execution]
    or [infer_type_vars_for_callable] returns is the name of a value that
    is a type variable. *)
Theorem only_type_variables_are_bound
  (depth : nat) (annotation_value : Value) (value_set : ValueSet)
  (is_class_value : bool) (function : Function) (arguments : CallArguments)
  (annotation_dict : gmap string Node) (lazy_params : list ValueSet) :
  (forall d,
      _infer_type_vars depth annotation_value value_set is_class_value
      = Ok d ->
      binds_type_variables d)
  ∧ (forall d,
        infer_type_vars_for_execution function arguments annotation_dict
        = Ok d ->
        binds_type_variables d)
  ∧ (forall d,
        infer_type_vars_for_callable arguments lazy_params = Ok d ->
        binds_type_variables d).
Proof.
  split; [intros d; apply infer_type_vars_binds|]. split.
  - intros d. unfold infer_type_vars_for_execution.
    apply for_each_invariant; [|apply binds_type_variables_empty].
    intros p s s' Hs.
    destruct (annotation_dict !! string_name p); [|by intros [= <-]].
    destruct (find_unknown_type_vars _ _) as [[|tv tvs]|e]; simpl;
      [by intros [= <-]| |done].
    apply merge_nested_binds; [|done].
    intros v r. apply infer_type_vars_binds.
  - intros d. unfold infer_type_vars_for_callable.
    apply for_each_invariant; [|apply binds_type_variables_empty].
    intros pair s s' Hs. apply merge_nested_binds; [|done].
    intros v r. apply infer_type_vars_binds.
Qed.

End keys.

(** ** A position of an annotation string *)

Section annotation_string_index.
Context {E : Engine}.

Lemma for_each_union {A} (l : list A)
  (body : A -> ValueSet -> result ValueSet) (elems : A -> ValueSet) :
  (forall x acc, x ∈ l -> body x acc = Ok (acc ∪ elems x)) ->
  forall acc, for_each l body acc = Ok (acc ∪ ⋃ (elems <$> l)).
Proof.
  induction l as [|x l IH]; intros Hbody acc.
  - simpl. f_equal. by rewrite (right_id_L ∅ (∪)).
  - simpl. rewrite Hbody by apply list_elem_of_here. simpl.
    rewrite IH by (intros; apply Hbody; by apply list_elem_of_further).
    f_equal. by rewrite (assoc_L (∪)).
Qed.

(** X18.  What [_infer_annotation_string] gives for a text that parses:
    without an index, the values of the text; with an index, only the
    values that are tuples of at least [index] elements are looked at, so
    that the result is empty when there is none, and the union of their
    elements at [index] when each of them has one. *)
Theorem annotation_string_index_selects
  (context : InferContext) (string : string) (index : nat) (node : Node)
  (Hparse : grammar_parse string = Ok node) :
  _infer_annotation_string context string None
  = Logged [] (Ok (infer_node context (anchor context node)))
  ∧ ((forall v, v ∈ infer_node context (anchor context node) ->
                ¬ tuple_for_index index v) ->
     _infer_annotation_string context string (Some index)
     = Logged [] (Ok ∅))
  ∧ (forall elems : Value -> ValueSet,
        (forall v, v ∈ infer_node context (anchor context node) ->
                   tuple_for_index index v ->
                   py__simple_getitem__ v index = Ok (elems v)) ->
        _infer_annotation_string context string (Some index)
        = Logged []
            (Ok (set_bind elems
                   (filter (tuple_for_index index)
                      (infer_node context (anchor context node)))))).
Proof.
  unfold _infer_annotation_string, _get_forward_reference_node.
  rewrite Hparse. cbn.
  match goal with
  | |- context [vs_py__simple_getitem__ ?kept index] =>
      assert (Hfilter :
        kept = filter (tuple_for_index index)
                 (infer_node context (anchor context node)))
        by (apply set_eq; intros v; by rewrite !elem_of_filter);
      rewrite Hfilter; clear Hfilter
  end.
  split; [done|]. split.
  - intros Hnone.
    assert (filter (tuple_for_index index)
              (infer_node context (anchor context node)) = ∅) as ->.
    { apply set_eq. intros v. rewrite elem_of_filter.
      split; [intros [Htuple Hv]; by destruct (Hnone v Hv)|set_solver]. }
    unfold vs_py__simple_getitem__. by rewrite elements_empty.
  - intros elems Hget. unfold lift, vs_py__simple_getitem__. f_equal.
    rewrite (for_each_union _ _ elems).
    + f_equal. by rewrite (left_id_L ∅ (∪)).
    + intros v acc [Htuple Hv]%elem_of_elements%elem_of_filter.
      by rewrite (Hget v Hv Htuple).
Qed.

End annotation_string_index.

Lemma annotation_string_index_selects_witness :
  _infer_annotation_string (E := Demo.engine) Demo.context "int, str"
    (Some 1)
  = Logged [] (Ok {[ Demo.str_class ]}).
Proof.
  rewrite (proj2 (proj2
    (annotation_string_index_selects (E := Demo.engine) Demo.context
       "int, str" 1 Demo.int_str_node eq_refl))
    (fun _ => {[ Demo.str_class ]})).
  - vm_compute. reflexivity.
  - intros v Hv _.
    assert (Hvalues :
      infer_node (Engine := Demo.engine) Demo.context
        (anchor (Engine := Demo.engine) Demo.context Demo.int_str_node)
      = {[ Demo.int_str_tuple ]}) by (vm_compute; reflexivity).
    rewrite Hvalues in Hv. apply elem_of_singleton in Hv as ->.
    reflexivity.
Defined.

(** ** The callable and tuple cases of unification *)

Section positions.
Context {E : Engine}.

Lemma merge_nested_type_var depth T (actual : ValueSet) flag
  (d : TypeVarDict) :
  isinstance T TypeVar = true ->
  merge_nested (fun v => _infer_type_vars (S depth) v actual flag) {[ T ]} d
  = Ok (_merge_type_var_dicts d
          {[ py__name__ T
             := if flag then actual else vs_py__class__ actual ]}).
Proof.
  intros HT. unfold merge_nested.
  rewrite elements_singleton, for_each_singleton.
  cbn [_infer_type_vars]. rewrite HT. by destruct flag.
Qed.

Lemma merge_empty_binding (d : TypeVarDict) k :
  _merge_type_var_dicts d {[ k := ∅ ]} = d.
Proof.
  apply map_eq. intros k'. rewrite lookup_merge_type_var_dicts.
  unfold merged_binding.
  destruct (decide (k' = k)) as [->|Hk].
  - rewrite lookup_singleton_eq. by destruct (decide (∅ ≠ ∅)).
  - by rewrite lookup_singleton_ne.
Qed.

(** X19.  [Callable[[...], T]] binds [T] to the classes of what the actual
    values give when executed, that is of what calling them returns; the
    parameter part of the annotation and the class-level flag play no
    part, and a [Callable] with any other number of generics than two
    binds nothing. *)
Theorem callable_annotation_binds_result
  (depth : nat) (annotation_value T : Value) (value_set : ValueSet)
  (is_class_value : bool)
  (Hnot_var : isinstance annotation_value TypeVar = false)
  (Htyping : isinstance annotation_value TypingClassValueWithIndex = true)
  (Hname : py__name__ annotation_value = "Callable")
  (HT : isinstance T TypeVar = true) :
  (forall params,
      get_generics annotation_value = [params; {[ T ]}] ->
      vs_execute_annotation value_set ≠ ∅ ->
      _infer_type_vars (S (S depth)) annotation_value value_set
        is_class_value
      = Ok {[ py__name__ T
              := vs_py__class__ (vs_execute_annotation value_set) ]})
  ∧ (forall params,
        get_generics annotation_value = [params; {[ T ]}] ->
        vs_execute_annotation value_set = ∅ ->
        _infer_type_vars (S (S depth)) annotation_value value_set
          is_class_value
        = Ok ∅)
  ∧ (length (get_generics annotation_value) ≠ 2 ->
     _infer_type_vars (S (S depth)) annotation_value value_set
       is_class_value
     = Ok ∅).
Proof.
  assert (Hcase : forall params,
    get_generics annotation_value = [params; {[ T ]}] ->
    _infer_type_vars (S (S depth)) annotation_value value_set is_class_value
    = Ok (_merge_type_var_dicts ∅
            {[ py__name__ T
               := vs_py__class__ (vs_execute_annotation value_set) ]})).
  { intros params Hgenerics.
    remember (S depth) as depth' eqn:Hdepth. cbn [_infer_type_vars].
    subst depth'. rewrite Hnot_var, Htyping, Hname, Hgenerics.
    destruct (decide ("Callable" = "Type")) as [?|_]; [done|].
    destruct (decide ("Callable" = "Callable")) as [_|?]; [|done].
    by rewrite merge_nested_type_var. }
  split; [|split].
  - intros params Hgenerics Hcalled. rewrite (Hcase params Hgenerics).
    rewrite merge_singleton_into_empty; [done|].
    apply set_choose_L in Hcalled as [v Hv]. unfold vs_py__class__.
    intros Hempty.
    assert (py__class__ v
            ∈ (set_map py__class__ (vs_execute_annotation value_set)
               : ValueSet)) as Hin by (apply elem_of_map; eauto).
    rewrite Hempty in Hin. set_solver.
  - intros params Hgenerics Hcalled. rewrite (Hcase params Hgenerics).
    rewrite Hcalled. unfold vs_py__class__. rewrite set_map_empty.
    by rewrite merge_empty_binding.
  - intros Hlength. cbn [_infer_type_vars].
    rewrite Hnot_var, Htyping, Hname.
    destruct (decide ("Callable" = "Type")) as [?|_]; [done|].
    destruct (decide ("Callable" = "Callable")) as [_|?]; [|done].
    by destruct (get_generics annotation_value) as [|? [|? [|? ?]]].
Qed.





End positions.

Lemma callable_annotation_binds_result_witness :
  _infer_type_vars (E := Demo2.engine) 2 Demo2.Callable_T1
    {[ Demo.int_class ]} false
  = Ok {[ "T" := {[ Demo.int_class ]} ]}.
Proof.
  rewrite (proj1 (callable_annotation_binds_result (E := Demo2.engine)
                    0 Demo2.Callable_T1 Demo.T1 {[ Demo.int_class ]} false
                    eq_refl eq_refl eq_refl eq_refl)
             {[ Demo2.callable_params ]} eq_refl).
  - vm_compute. reflexivity.
  - vm_compute. discriminate.
Defined.



(** ** The parameters of a call *)

Section execution.
Context {E : Engine}.

Lemma merge_nested_type_var_at limit T (actual : ValueSet)
  (d : TypeVarDict) :
  0 < limit ->
  isinstance T TypeVar = true ->
  merge_nested (fun v => _infer_type_vars limit v actual false) {[ T ]} d
  = Ok (_merge_type_var_dicts d {[ py__name__ T := vs_py__class__ actual ]}).
Proof.
  intros Hlimit HT. destruct limit as [|depth]; [lia|].
  unfold merge_nested. rewrite elements_singleton, for_each_singleton.
  cbn [_infer_type_vars]. by rewrite HT.
Qed.

(** X22.  Unification over the parameters of a call looks only at the
    parameters that have an annotation in which a type variable is found:
    when there is none, nothing is bound and nothing is unified; and a
    single such parameter annotated with a type variable binds it to the
    classes of its argument's values, which for [*args] are what iterating
    over the argument gives and for [**kwargs] its dictionary values. *)
Theorem execution_binds_by_parameter_kind
  (function : Function) (arguments : CallArguments)
  (annotation_dict : gmap string Node) :
  (Forall (skipped_parameter (get_default_param_context function)
             annotation_dict)
     (get_executed_param_names function arguments) ->
   infer_type_vars_for_execution function arguments annotation_dict = Ok ∅)
  ∧ (forall before after p annotation_node T first rest,
        get_executed_param_names function arguments
        = before ++ p :: after ->
        Forall (skipped_parameter (get_default_param_context function)
                  annotation_dict) (before ++ after) ->
        annotation_dict !! string_name p = Some annotation_node ->
        find_unknown_type_vars (get_default_param_context function)
          annotation_node = Ok (first :: rest) ->
        infer_node (get_default_param_context function) annotation_node
        = {[ T ]} ->
        isinstance T TypeVar = true ->
        0 < recursion_limit ->
        infer_type_vars_for_execution function arguments annotation_dict
        = Ok (_merge_type_var_dicts ∅
                {[ py__name__ T := vs_py__class__ (argument_values p) ]})).
Proof.
  unfold infer_type_vars_for_execution.
  set (body := fun (executed_param_name : ExecutedParamName)
                   (annotation_variable_results : TypeVarDict) => _).
  assert (Hskip : forall l d,
    Forall (skipped_parameter (get_default_param_context function)
              annotation_dict) l ->
    for_each l body d = Ok d).
  { intros l d Hl. apply for_each_unchanged. intros p d' Hp.
    rewrite Forall_forall in Hl. specialize (Hl p Hp).
    unfold skipped_parameter in Hl. unfold body.
    destruct (annotation_dict !! string_name p); [|done].
    by rewrite Hl. }
  split; [by apply Hskip|].
  intros before after p annotation_node T first rest Hnames
    [Hbefore Hafter]%Forall_app Hannotation Hfound Hvalue HT Hlimit.
  rewrite Hnames.
  assert (Happ : forall (l k : list ExecutedParamName) d d',
    for_each l body d = Ok d' ->
    for_each (l ++ k) body d = for_each k body d').
  { induction l as [|x l IH]; intros k d d' Hl; simpl in *.
    - by injection Hl as ->.
    - destruct (body x d) as [d''|e]; simpl in *; [by apply IH|done]. }
  rewrite (Happ before _ ∅ ∅) by by apply Hskip.
  cbn [for_each].
  assert (Hp : body p ∅
               = Ok (_merge_type_var_dicts ∅
                       {[ py__name__ T
                          := vs_py__class__ (argument_values p) ]})).
  { unfold body. rewrite Hannotation, Hfound. cbn [mbind result_bind].
    rewrite Hvalue. unfold argument_values.
    by rewrite merge_nested_type_var_at. }
  rewrite Hp. cbn [mbind result_bind]. by apply Hskip.
Qed.

End execution.

Lemma execution_binds_by_parameter_kind_witness :
  infer_type_vars_for_execution (E := Demo.engine) Demo.f_identity
    Demo.arguments {[ "x" := name "T1" ]}
  = Ok {[ "T" := {[ Demo.int_class ]} ]}.
Proof.
  rewrite (proj2 (execution_binds_by_parameter_kind (E := Demo.engine)
                    Demo.f_identity Demo.arguments {[ "x" := name "T1" ]})
             []
             [ {| string_name := "y"; get_kind := POSITIONAL_OR_KEYWORD;
                  infer := {[ Demo.str_instance ]} |} ]
             {| string_name := "x"; get_kind := POSITIONAL_OR_KEYWORD;
                infer := {[ Demo.int_instance ]} |}
             (name "T1") Demo.T1 Demo.T1 []).
  - vm_compute. reflexivity.
  - reflexivity.
  - repeat constructor.
  - reflexivity.
  - vm_compute. reflexivity.
  - vm_compute. reflexivity.
  - reflexivity.
  - vm_compute. lia.
Defined.
